(** * The job directory store of the job-finder application

    A shallow embedding of [JobProvider] (context/JobContext.tsx) and of the
    helpers of the screens (time ago, expiry, salary line, Save button, form
    validation), with the properties of the store's operations
    ([fetchJobs], [loadMoreJobs], [searchJobs], [addJob], [removeJob]) and
    of what the screens make of the postings.

    How the React component is read.  [JobProvider] is a function that React
    calls once per render.  Each call binds the constants [savedJobs],
    [jobs], [filteredJobs], [loading], [loadingMore] and [page] to the values
    the store holds at that render, and builds new closures over these
    constants.  A closure keeps the constants of its own render for its whole
    life, also across an [await]; only the setters ([setJobs], ...) reach the
    live store.  Every operation below therefore takes two states: [env], the
    values bound by the render that built the closure, and [s], the live
    store the setters act on.  An operation started from the screen that
    shows state [s] runs with [env = s].

    How strings are read.  A string is the sequence of its code units.  The
    functions of ECMAScript that depend on the Unicode tables are not
    written out: [toLowerCase], the white space that [trim] strips and the
    conversion of a string to a number are parameters, and every theorem
    holds whatever they are.  Instances on the ASCII letters and the
    Latin-1 white space serve to run the examples. *)

From Stdlib Require Import List Bool ZArith QArith Qround Lia Lqa.
From Stdlib Require Import Ascii String DecimalString.
Import ListNotations.

Open Scope string_scope.
Open Scope Z_scope.

(** ** Strings *)

(** An instance of [String.prototype.toLowerCase] for running examples: the
    letters [A]..[Z] go to [a]..[z], every other character stays.  On a text
    made of ASCII characters this is what [toLowerCase] gives. *)
Definition lower_ascii (c : ascii) : ascii :=
  let n := nat_of_ascii c in
  if (Nat.leb 65 n && Nat.leb n 90)%bool then ascii_of_nat (n + 32) else c.

Fixpoint toLowerCase_ascii (s : string) : string :=
  match s with
  | EmptyString => EmptyString
  | String c s' => String (lower_ascii c) (toLowerCase_ascii s')
  end.

(** An instance of the white space of [String.prototype.trim] for running
    examples, on the code units below 256: tab, line feed, vertical tab,
    form feed, carriage return, space and the no-break space. *)
Definition is_whitespace_latin1 (c : ascii) : bool :=
  let n := nat_of_ascii c in
  ((Nat.leb 9 n && Nat.leb n 13) || Nat.eqb n 32 || Nat.eqb n 160)%bool.

(** [String.prototype.includes]: does [pat] occur in [s] at some position? *)
Fixpoint includes (s pat : string) : bool :=
  if String.prefix pat s then true
  else match s with
       | EmptyString => false
       | String _ s' => includes s' pat
       end.

(** [v || d] for a value that is a string or [undefined] ([None]): the empty
    string is falsy. *)
Definition or_else (v : option string) (d : string) : string :=
  match v with
  | Some s => if String.eqb s "" then d else s
  | None => d
  end.

(** ** Numbers and raw JSON values *)

(** A JavaScript number: [NaN] or a finite value.  Finite values are kept
    exact (the timestamps and salaries at hand are far below 2^53). *)
Inductive number : Type :=
| NaN
| Fin (q : Q).

(** A value as it sits in a parsed JSON payload or in a field of a record
    built by the store.  [JObject str] is an object or array whose string
    form is [str]. *)
Inductive JsValue : Type :=
| undefined
| null
| JBool (b : bool)
| JNumber (n : number)
| JString (s : string)
| JObject (str : string).

(** ToBoolean on numbers and on values. *)
Definition truthy_number (n : number) : bool :=
  match n with
  | NaN => false
  | Fin q => negb (Qeq_bool q 0)
  end.

Definition truthy (v : JsValue) : bool :=
  match v with
  | undefined | null => false
  | JBool b => b
  | JNumber n => truthy_number n
  | JString s => negb (String.eqb s "")
  | JObject _ => true
  end.

(** [a ?? b]: [b] only when [a] is [null] or [undefined]. *)
Definition nullish (a b : JsValue) : JsValue :=
  match a with
  | undefined | null => b
  | _ => a
  end.

(** ** Job postings *)

(** [interface Job].  The optional numeric fields hold whatever the store
    put there: a number, [null] or [undefined]. *)
Record Job : Type := mkJob {
  id : string;
  title : string;
  companyName : string;
  mainCategory : string;
  pubDate : JsValue;
  expiryDate : JsValue;
  companyLogo : string;
  jobType : string;
  workModel : string;
  seniorityLevel : string;
  minSalary : JsValue;
  maxSalary : JsValue
}.

(** An element of [response.data.jobs] ([job: any]).  Text fields are a
    string or absent, as [interface Job] has them; the fields passed to
    [Number(...)] are arbitrary values. *)
Module Raw.
Record t : Type := mk {
  title : option string;
  mainCategory : option string;
  pubDate : JsValue;
  expiryDate : JsValue;
  companyName : option string;
  jobType : option string;
  workModel : option string;
  seniorityLevel : option string;
  minSalary : JsValue;
  maxSalary : JsValue;
  companyLogo : option string
}.

(** A record with no field at all, [{}]. *)
Definition empty : t :=
  mk None None undefined undefined None None None None undefined undefined None.
End Raw.

(** ** The store *)

(** The six [useState] cells of [JobProvider]. *)
Record State : Type := mkState {
  savedJobs : list Job;
  jobs : list Job;
  filteredJobs : list Job;
  loading : bool;
  loadingMore : bool;
  page : Z
}.

(** The values of the first render: the arguments of the [useState] calls. *)
Definition initial : State :=
  mkState [] [] [] false false 1.

(** The argument of a setter: a new value, or an updater applied to the
    value the store holds when the update runs. *)
Inductive SetStateAction (A : Type) : Type :=
| Value (v : A)
| Updater (f : A -> A).
Arguments Value {A} v.
Arguments Updater {A} f.

Definition next {A : Type} (a : SetStateAction A) (prev : A) : A :=
  match a with
  | Value v => v
  | Updater f => f prev
  end.

Definition setSavedJobs (a : SetStateAction (list Job)) (s : State) : State :=
  mkState (next a (savedJobs s)) (jobs s) (filteredJobs s)
          (loading s) (loadingMore s) (page s).

Definition setJobs (a : SetStateAction (list Job)) (s : State) : State :=
  mkState (savedJobs s) (next a (jobs s)) (filteredJobs s)
          (loading s) (loadingMore s) (page s).

Definition setFilteredJobs (a : SetStateAction (list Job)) (s : State) : State :=
  mkState (savedJobs s) (jobs s) (next a (filteredJobs s))
          (loading s) (loadingMore s) (page s).

Definition setLoading (a : SetStateAction bool) (s : State) : State :=
  mkState (savedJobs s) (jobs s) (filteredJobs s)
          (next a (loading s)) (loadingMore s) (page s).

Definition setLoadingMore (a : SetStateAction bool) (s : State) : State :=
  mkState (savedJobs s) (jobs s) (filteredJobs s)
          (loading s) (next a (loadingMore s)) (page s).

Definition setPage (a : SetStateAction Z) (s : State) : State :=
  mkState (savedJobs s) (jobs s) (filteredJobs s)
          (loading s) (loadingMore s) (next a (page s)).

Section Store.

(** [String.prototype.toLowerCase], as ECMAScript defines it.  Nothing is
    assumed of the letters it folds nor of its context rules; the one fact
    used, and only where it is named, is that the empty string has the
    empty lower-case form. *)
Variable toLowerCase : string -> string.
Hypothesis toLowerCase_empty : toLowerCase "" = "".

(** The white space of ECMAScript ([WhiteSpace] and [LineTerminator]), the
    characters [String.prototype.trim] strips. *)
Variable is_whitespace : ascii -> bool.

(** ** Search *)

(** The array literal of [searchJobs], in its order. *)
Definition searched_fields (job : Job) : list string :=
  [ title job; companyName job; mainCategory job;
    jobType job; workModel job; seniorityLevel job ].

(** The callback given to [jobs.filter]:
    [.some((field) => (field || '').toLowerCase().includes(lowerCaseText))]. *)
Definition some_field_includes (lowerCaseText : string) (job : Job) : bool :=
  existsb (fun field => includes (toLowerCase (or_else (Some field) "")) lowerCaseText)
          (searched_fields job).

(** [searchJobs(text)], as built by the render [env]. *)
Definition searchJobs (env : State) (text : string) (s : State) : State :=
  if String.eqb text "" then
    setFilteredJobs (Value (jobs env)) s
  else
    let lowerCaseText := toLowerCase text in
    let filtered := filter (some_field_includes lowerCaseText) (jobs env) in
    setFilteredJobs (Value filtered) s.

(** The predicate as the specification words it: one match against the
    concatenation of the six fields. *)
Definition concatenation (job : Job) : string :=
  title job ++ companyName job ++ mainCategory job
    ++ jobType job ++ workModel job ++ seniorityLevel job.

Definition spec_concat_includes (text : string) (job : Job) : bool :=
  includes (toLowerCase (concatenation job)) (toLowerCase text).

(** ** Saved jobs *)

(** [prevJobs.find((j) => j.id === job.id)] *)
Definition find_by_id (jobId : string) (l : list Job) : option Job :=
  find (fun j => String.eqb (id j) jobId) l.

(** [addJob(job)] *)
Definition addJob (job : Job) (s : State) : State :=
  setSavedJobs (Updater (fun prevJobs =>
    match find_by_id (id job) prevJobs with
    | Some _ => prevJobs
    | None => (prevJobs ++ [job])%list
    end)) s.

(** [removeJob(jobId)] *)
Definition removeJob (jobId : string) (s : State) : State :=
  setSavedJobs (Updater (fun prevJobs =>
    filter (fun job => negb (String.eqb (id job) jobId)) prevJobs)) s.

(** ** Arithmetic on numbers *)

Definition Qlt_bool (x y : Q) : bool := negb (Qle_bool y x).

Definition num_mul (a b : number) : number :=
  match a, b with
  | Fin x, Fin y => Fin (x * y)
  | _, _ => NaN
  end.

Definition num_sub (a b : number) : number :=
  match a, b with
  | Fin x, Fin y => Fin (x - y)
  | _, _ => NaN
  end.

(** Division, for a divisor other than zero (the only use is [/ 1000]). *)
Definition num_div (a b : number) : number :=
  match a, b with
  | Fin x, Fin y => if Qeq_bool y 0 then NaN else Fin (x / y)
  | _, _ => NaN
  end.

(** [a < b]: false as soon as one side is [NaN]. *)
Definition num_lt (a b : number) : bool :=
  match a, b with
  | Fin x, Fin y => Qlt_bool x y
  | _, _ => false
  end.

(** [a && b]: [a] when [a] is falsy, else [b]. *)
Definition and_then (a b : JsValue) : JsValue :=
  if truthy a then b else a.

(** [Date.now()], a whole number of milliseconds. *)
Definition Date_now (now : Z) : number := Fin (inject_Z now).

(** ** Fetching *)

(** What [await axios.get(...)] and the reading of [response.data.jobs] can
    come to. *)
Inductive Response : Type :=
| Rejected
    (* the request throws: transport error, status outside 2xx *)
| NoData
    (* [response.data] is [null] or [undefined]: reading [.jobs] throws *)
| NotArray
    (* [Array.isArray(response.data.jobs)] is false *)
| JobsArray (l : list (option Raw.t)).
    (* an array; [None] is a [null] element, on which [job.title] throws *)

(** StringToNumber of ECMAScript, the conversion [Number] applies to a
    string; the store works the same way whatever it answers. *)
Variable StringToNumber : string -> number.

(** [Number(v)] *)
Definition Number (v : JsValue) : number :=
  match v with
  | undefined => NaN
  | null => Fin 0
  | JBool true => Fin 1
  | JBool false => Fin 0
  | JNumber n => n
  | JString s => StringToNumber s
  | JObject str => StringToNumber str
  end.

(** The object literal built by the callback of [response.data.jobs.map],
    [theId] being the value of [uuid.v4().toString()]. *)
Definition jobWithId (theId : string) (job : Raw.t) : Job :=
  {| id := theId;
     title := or_else (Raw.title job) "No Title";
     mainCategory := or_else (Raw.mainCategory job) "Unknown";
     pubDate := nullish (JNumber (Number (Raw.pubDate job))) null;
     expiryDate := nullish (JNumber (Number (Raw.expiryDate job))) null;
     companyName := or_else (Raw.companyName job) "Unknown Company";
     jobType := or_else (Raw.jobType job) "Unknown";
     workModel := or_else (Raw.workModel job) "Unknown";
     seniorityLevel := or_else (Raw.seniorityLevel job) "Unspecified";
     minSalary := nullish (JNumber (Number (Raw.minSalary job))) null;
     maxSalary := nullish (JNumber (Number (Raw.maxSalary job))) null;
     companyLogo := or_else (Raw.companyLogo job) "" |}.

(** [response.data.jobs.map(...)]: [uuid k] is what the [k]-th call of
    [uuid.v4()] returns; [None] when the callback throws. *)
Fixpoint jobsWithIds (uuid : nat -> string) (k : nat)
         (l : list (option Raw.t)) : option (list Job) :=
  match l with
  | [] => Some []
  | None :: _ => None
  | Some job :: l' =>
      match jobsWithIds uuid (S k) l' with
      | Some rest => Some (jobWithId (uuid k) job :: rest)
      | None => None
      end
  end.

(** The body of [fetchJobs] up to the [await]: [None] when it returns at
    the guard. *)
Definition fetchJobs_begin (env : State) (pageNumber : Z) (s : State)
  : option State :=
  if (loading env || loadingMore env)%bool then None
  else if pageNumber =? 1 then Some (setLoading (Value true) s)
  else Some (setLoadingMore (Value true) s).

(** The [try] block once the request has settled; a thrown error is caught
    and logged, the store stays as it is. *)
Definition fetchJobs_try (append : bool) (response : Response)
           (uuid : nat -> string) (s : State) : State :=
  match response with
  | Rejected | NoData | NotArray => s
  | JobsArray l =>
      match jobsWithIds uuid 0 l with
      | None => s
      | Some jobsWithIds =>
          if append then
            setFilteredJobs (Updater (fun prevJobs => (prevJobs ++ jobsWithIds)%list))
              (setJobs (Updater (fun prevJobs => (prevJobs ++ jobsWithIds)%list)) s)
          else
            setFilteredJobs (Value jobsWithIds) (setJobs (Value jobsWithIds) s)
      end
  end.

(** The two statements after the [try]. *)
Definition fetchJobs_end (s : State) : State :=
  setLoadingMore (Value false) (setLoading (Value false) s).

(** The function [async (pageNumber = 1, append = false) => ...] as a
    render [env] builds it, run to its end against the store [s]. *)
Definition fetchJobs_of (env : State) (pageNumber : Z) (append : bool)
           (response : Response) (uuid : nat -> string) (s : State) : State :=
  match fetchJobs_begin env pageNumber s with
  | None => s
  | Some s1 => fetchJobs_end (fetchJobs_try append response uuid s1)
  end.

(** [useCallback(..., [])]: with an empty dependency list React keeps the
    function of the first render for ever, so [loading] and [loadingMore]
    in its guard are the constants of that render. *)
Definition fetchJobs : Z -> bool -> Response -> (nat -> string) -> State -> State :=
  fetchJobs_of initial.

(** [loadMoreJobs(pageNumber = page + 1)], as built by the render [env].
    [searchJobs] is the closure of the same render. *)
Definition loadMoreJobs (env : State) (pageNumber : option Z)
           (response : Response) (uuid : nat -> string) (s : State) : State :=
  let pageNumber := match pageNumber with
                    | Some p => p
                    | None => page env + 1
                    end in
  if (loadingMore env || loading env)%bool then s
  else
    let s1 := setLoadingMore (Value true) s in
    let s2 := setPage (Value pageNumber) s1 in
    let s3 := fetchJobs pageNumber true response uuid s2 in
    searchJobs env "" s3.

(** ** Runs of the store *)

(** One operation of the store.  The render whose closure is called is
    left free: every render shows some earlier state of the store. *)
Inductive step : State -> State -> Prop :=
| step_fetchJobs : forall s pageNumber append response uuid,
    step s (fetchJobs pageNumber append response uuid s)
| step_loadMoreJobs : forall env s pageNumber response uuid,
    step s (loadMoreJobs env pageNumber response uuid s)
| step_searchJobs : forall env s text,
    step s (searchJobs env text s)
| step_addJob : forall s job,
    step s (addJob job s)
| step_removeJob : forall s jobId,
    step s (removeJob jobId s).

Inductive reachable : State -> Prop :=
| reachable_initial : reachable initial
| reachable_step : forall s s', reachable s -> step s s' -> reachable s'.

(** ** Expiry, as the screens compute it *)

(** [isExpired] of JobFinderScreen and SavedJobsScreen:
    [expiryDate && expiryDate * 1000 < Date.now()]. *)
Definition isExpired (now : Z) (expiryDate : JsValue) : JsValue :=
  and_then expiryDate
    (JBool (num_lt (num_mul (Number expiryDate) (Fin 1000)) (Date_now now))).

(** [isExpiryNear] of ApplicationFormScreen, for the posting [job]. *)
Definition isExpiryNear (now : Z) (job : Job) : JsValue :=
  let today := num_div (Date_now now) (Fin 1000) in
  and_then (expiryDate job)
    (JBool (num_lt (num_sub (Number (expiryDate job)) today) (Fin 432000))).

(** The banner of ApplicationFormScreen reads "Expires soon!" when the
    expiry line is shown and [isExpiryNear()] is truthy. *)
Definition expiring_soon (now : Z) (job : Job) : bool :=
  (truthy (expiryDate job) && truthy (isExpiryNear now job))%bool.

(** ** The specification's reading of a match, and sample data *)

(** [pat] occurs in [s]: some text before it, some text after it. *)
Definition occurs_in (pat s : string) : Prop :=
  exists before after, s = before ++ pat ++ after.

(** The lower-case form of some searched field of [job] contains the
    lower-case form of [text]. *)
Definition field_matches (text : string) (job : Job) : Prop :=
  exists field,
    In field (searched_fields job)
    /\ occurs_in (toLowerCase text) (toLowerCase field).

(** Identifiers of a list of postings, in order. *)
Definition ids (l : list Job) : list string := map id l.

(** An instance of StringToNumber for running examples: a string of decimal
    digits is its value (the empty string is zero), anything else [NaN]. *)
Fixpoint digits_value (s : string) (acc : Z) : option Z :=
  match s with
  | EmptyString => Some acc
  | String c s' =>
      let n := Z.of_nat (nat_of_ascii c) in
      if ((48 <=? n) && (n <=? 57))%bool
      then digits_value s' (10 * acc + (n - 48))
      else None
  end.

Definition StringToNumber_digits (s : string) : number :=
  match digits_value s 0 with
  | Some z => Fin (inject_Z z)
  | None => NaN
  end.

(** Successive answers of [uuid.v4()] in the examples. *)
Definition sample_uuid (k : nat) : string :=
  match k with
  | O => "id-b"
  | S O => "id-c"
  | _ => "id-d"
  end.

Definition job_a : Job :=
  {| id := "id-a"; title := "Engineer"; companyName := "Acme";
     mainCategory := "Software"; pubDate := JNumber (Fin 1700000000);
     expiryDate := JNumber (Fin 1700600000); companyLogo := "";
     jobType := "Full-time"; workModel := "Remote"; seniorityLevel := "Senior";
     minSalary := JNumber (Fin 50000); maxSalary := JNumber (Fin 90000) |}.

(** Page 1 is loaded and shown, nothing is in flight. *)
Definition page1_loaded : State :=
  mkState [] [job_a] [job_a] false false 1.

(** The store as [loadMoreJobs] leaves it when it calls [fetchJobs]:
    [loadingMore] is set and the cursor is at page 2. *)
Definition busy_loading_more : State :=
  mkState [] [job_a] [job_a] false true 2.

(** The posting [job] with the expiry timestamp [e] (seconds). *)
Definition with_expiry (e : Q) (job : Job) : Job :=
  {| id := id job; title := title job; companyName := companyName job;
     mainCategory := mainCategory job; pubDate := pubDate job;
     expiryDate := JNumber (Fin e); companyLogo := companyLogo job;
     jobType := jobType job; workModel := workModel job;
     seniorityLevel := seniorityLevel job;
     minSalary := minSalary job; maxSalary := maxSalary job |}.

(** A one-record page whose record has no field. *)
Definition one_bare_record : Response := JobsArray [Some Raw.empty].

(** A fetch that fails: the request is rejected, or the payload is not of
    the expected shape (no body, [jobs] not an array, a [null] element). *)
Definition fetch_fails (response : Response) : bool :=
  match response with
  | Rejected | NoData | NotArray => true
  | JobsArray l =>
      existsb (fun e => match e with None => true | Some _ => false end) l
  end.

(** ** The screens *)

(** [Math.floor] *)
Definition Math_floor (n : number) : number :=
  match n with
  | NaN => NaN
  | Fin q => Fin (inject_Z (Qfloor q))
  end.

(** [a >= b] and [a > b]: false as soon as one side is [NaN]. *)
Definition num_ge (a b : number) : bool :=
  match a, b with
  | Fin x, Fin y => Qle_bool y x
  | _, _ => false
  end.

Definition num_gt (a b : number) : bool := num_lt b a.

(** The decimal digits of a whole number, with its sign. *)
Definition Z_toString (z : Z) : string := NilZero.string_of_int (Z.to_int z).

(** A number inside a template literal.  The templates of the screens only
    receive results of [Math.floor], which are whole. *)
Definition number_toString (n : number) : string :=
  match n with
  | NaN => "NaN"
  | Fin q => Z_toString (Qfloor q)
  end.

(** [`${v}`] *)
Definition template (v : JsValue) : string :=
  match v with
  | undefined => "undefined"
  | null => "null"
  | JBool true => "true"
  | JBool false => "false"
  | JNumber n => number_toString n
  | JString s => s
  | JObject str => str
  end.

(** [a || b] on values: [a] when [a] is truthy, else [b]. *)
Definition or_value (a b : JsValue) : JsValue :=
  if truthy a then a else b.

(** The object [intervals] of [getTimeAgo], in the order [for ... in] walks
    its keys. *)
Definition intervals : list (string * Z) :=
  [ ("year", 31536000); ("month", 2592000); ("week", 604800);
    ("day", 86400); ("hour", 3600); ("minute", 60) ].

(** The [for] loop of [getTimeAgo] over the keys still to visit, with the
    closing [return 'Just now']. *)
Fixpoint getTimeAgo_loop (seconds : number) (keys : list (string * Z)) : string :=
  match keys with
  | [] => "Just now"
  | (key, len) :: rest =>
      let interval := Math_floor (num_div seconds (Fin (inject_Z len))) in
      if num_ge interval (Fin 1) then
        number_toString interval ++ " " ++ key
          ++ (if num_gt interval (Fin 1) then "s" else "") ++ " ago"
      else getTimeAgo_loop seconds rest
  end.

(** [getTimeAgo(pubDate)] of JobFinderScreen and SavedJobsScreen. *)
Definition getTimeAgo (now : Z) (pubDate : JsValue) : string :=
  let seconds :=
    Math_floor (num_div (num_sub (Date_now now)
                                 (num_mul (Number pubDate) (Fin 1000)))
                        (Fin 1000)) in
  getTimeAgo_loop seconds intervals.

(** What the template of [getTimeAgo] gives for the count [n] of [key]s. *)
Definition ago (n : Z) (key : string) : string :=
  Z_toString n ++ " " ++ key ++ (if 1 <? n then "s" else "") ++ " ago".

(** [daysUntilExpiry] of ApplicationFormScreen, for the posting [job]. *)
Definition daysUntilExpiry (now : Z) (job : Job) : JsValue :=
  if negb (truthy (expiryDate job)) then null
  else
    let daysLeft :=
      Math_floor (num_div (num_sub (num_mul (Number (expiryDate job)) (Fin 1000))
                                   (Date_now now))
                          (Fin (1000 * 60 * 60 * 24))) in
    if num_gt daysLeft (Fin 0)
    then JString (number_toString daysLeft ++ " days left")
    else JString "Expired".

(** The expression of the expiry line of ApplicationFormScreen:
    [job.expiryDate && (isExpiryNear() ? `Expires soon! ...` : `Expires in ...`)],
    the text standing for the element that shows it.  [isExpiryNear] and
    [daysUntilExpiry] each call [Date.now()]: [now_near] is what the first
    call reads, [now_days] what the second reads. *)
Definition expiry_line (now_near now_days : Z) (job : Job) : JsValue :=
  and_then (expiryDate job)
    (JString (if truthy (isExpiryNear now_near job)
              then "Expires soon! " ++ template (daysUntilExpiry now_days job)
              else "Expires in " ++ template (daysUntilExpiry now_days job))).

(** The test of the salary line of the two list screens:
    [item.minSalary && item.maxSalary ? ... : 'Salary not disclosed']. *)
Definition salary_disclosed (item : Job) : bool :=
  truthy (and_then (minSalary item) (maxSalary item)).

(** The expression of the salary block of ApplicationFormScreen:
    [(job.minSalary || job.maxSalary) && (<Text>...</Text>)], [element]
    standing for the [<Text>] element. *)
Definition salary_block (job : Job) (element : JsValue) : JsValue :=
  and_then (or_value (minSalary job) (maxSalary job)) element.

(** [isSaved] of [renderJobItem] in JobFinderScreen:
    [savedJobs.find((job) => job.id === item.id)]; the Save button is
    disabled when it is found. *)
Definition isSaved (item : Job) (s : State) : option Job :=
  find_by_id (id item) (savedJobs s).

Definition save_disabled (item : Job) (s : State) : bool :=
  match isSaved item s with
  | Some _ => true
  | None => false
  end.

(** ** The application form *)

(** [String.prototype.trim]: white space goes from both ends. *)
Fixpoint trimStart (s : string) : string :=
  match s with
  | EmptyString => EmptyString
  | String c s' => if is_whitespace c then trimStart s' else s
  end.

Fixpoint trimEnd (s : string) : string :=
  match s with
  | EmptyString => EmptyString
  | String c s' =>
      match trimEnd s' with
      | EmptyString => if is_whitespace c then EmptyString else String c EmptyString
      | rest => String c rest
      end
  end.

Definition trim (s : string) : string := trimEnd (trimStart s).

(** The four text inputs of ApplicationFormScreen. *)
Record Form : Type := mkForm {
  name : string;
  email : string;
  contact : string;
  reason : string
}.

(** [isValidForm()]: the value returned, and the message of the alert
    raised on the way, if any. *)
Definition isValidForm (form : Form) : bool * option string :=
  if String.eqb (trim (name form)) "" then
    (false, Some "Name is required.")
  else if negb (includes (email form) "@") then
    (false, Some "Enter a valid email address.")
  else if String.eqb (trim (contact form)) "" then
    (false, Some "Contact number is required.")
  else if String.eqb (trim (reason form)) "" then
    (false, Some "Please provide a reason for hiring.")
  else (true, None).

(** Every character of [s] is white space. *)
Definition blank (s : string) : Prop :=
  forall c, In c (list_ascii_of_string s) -> is_whitespace c = true.

(** ** Runs seen from the screen *)

(** One operation started from the screen that shows the store as it is:
    the closure called is the one of the render of [s]. *)
Inductive step_shown : State -> State -> Prop :=
| shown_fetchJobs : forall s pageNumber append response uuid,
    step_shown s (fetchJobs pageNumber append response uuid s)
| shown_loadMoreJobs : forall s pageNumber response uuid,
    step_shown s (loadMoreJobs s pageNumber response uuid s)
| shown_searchJobs : forall s text,
    step_shown s (searchJobs s text s)
| shown_addJob : forall s job,
    step_shown s (addJob job s)
| shown_removeJob : forall s jobId,
    step_shown s (removeJob jobId s).

Inductive shown_run : State -> Prop :=
| shown_initial : shown_run initial
| shown_step : forall s s', shown_run s -> step_shown s s' -> shown_run s'.

(** [view] is [all] with some elements left out, the order kept. *)
Inductive picked_from {A : Type} : list A -> list A -> Prop :=
| picked_none : picked_from [] []
| picked_drop : forall x view all,
    picked_from view all -> picked_from view (x :: all)
| picked_take : forall x view all,
    picked_from view all -> picked_from (x :: view) (x :: all).

(** No searched field of the posting is empty. *)
Definition fields_filled (job : Job) : Prop :=
  Forall (fun field => field <> "") (searched_fields job).

(** ** Strings: what [includes] decides *)

Lemma prefix_occurs (p s : string) :
  String.prefix p s = true <-> exists after, s = p ++ after.
Proof.
  revert s; induction p as [|c p IH]; intros s; simpl.
  - split; [intros _; exists s; reflexivity | destruct s; reflexivity].
  - destruct s as [|d s].
    + split; [discriminate | intros [after H]; discriminate].
    + simpl. destruct (ascii_dec c d) as [Hcd|Hcd].
      * subst d. rewrite IH. split; intros [after H]; exists after.
        -- now rewrite H.
        -- now injection H.
      * split; [discriminate | intros [after H]; injection H; intros; congruence].
Qed.

Lemma includes_unfold (s pat : string) :
  includes s pat =
  if String.prefix pat s then true
  else match s with
       | EmptyString => false
       | String _ s' => includes s' pat
       end.
Proof. destruct s; reflexivity. Qed.

Lemma includes_occurs (s pat : string) :
  includes s pat = true <-> occurs_in pat s.
Proof.
  unfold occurs_in. induction s as [|c s IH]; rewrite includes_unfold;
    destruct (String.prefix pat _) eqn:E.
  - split; [intros _ | reflexivity].
    apply prefix_occurs in E. destruct E as [after E].
    exists "", after. exact E.
  - split; [discriminate|]. intros [before [after H]].
    destruct before; [|discriminate]. simpl in H.
    assert (String.prefix pat "" = true) by (apply prefix_occurs; eauto).
    congruence.
  - split; [intros _ | reflexivity].
    apply prefix_occurs in E. destruct E as [after E].
    exists "", after. exact E.
  - rewrite IH. split.
    + intros [before [after H]]. exists (String c before), after.
      simpl. now rewrite H.
    + intros [before [after H]]. destruct before as [|d before].
      * simpl in H.
        assert (String.prefix pat (String c s) = true)
          by (apply prefix_occurs; eauto).
        congruence.
      * simpl in H. injection H as _ H. eauto.
Qed.

Lemma includes_empty (s : string) : includes s "" = true.
Proof. destruct s; reflexivity. Qed.

Lemma or_else_string (field : string) : or_else (Some field) "" = field.
Proof.
  unfold or_else. destruct (String.eqb field "") eqn:E; [|reflexivity].
  apply String.eqb_eq in E. now subst.
Qed.

Lemma some_field_includes_matches (text : string) (job : Job) :
  some_field_includes (toLowerCase text) job = true <-> field_matches text job.
Proof.
  unfold some_field_includes, field_matches. rewrite existsb_exists.
  split; intros [field [Hin H]]; exists field; split; try exact Hin.
  - rewrite or_else_string in H. now apply includes_occurs.
  - rewrite or_else_string. now apply includes_occurs.
Qed.

Lemma some_field_includes_empty (job : Job) :
  some_field_includes "" job = true.
Proof.
  unfold some_field_includes, searched_fields. simpl.
  now rewrite includes_empty.
Qed.

Lemma filter_all {A : Type} (f : A -> bool) (l : list A) :
  (forall x, f x = true) -> filter f l = l.
Proof.
  intros H. induction l as [|x l IH]; simpl; [reflexivity|].
  now rewrite H, IH.
Qed.

(** Whatever the text, the filtered view is the filter of the render's
    [jobs] by the callback. *)
Lemma searchJobs_filter (env : State) (text : string) (s : State) :
  filteredJobs (searchJobs env text s)
  = filter (some_field_includes (toLowerCase text)) (jobs env).
Proof.
  unfold searchJobs. destruct (String.eqb text "") eqn:E; simpl; [|reflexivity].
  apply String.eqb_eq in E. subst text. simpl. rewrite toLowerCase_empty.
  symmetry. apply filter_all, some_field_includes_empty.
Qed.

(** ** Search *)

(** C1, as the code has it: [searchJobs(t)] sets [filteredJobs] to the
    postings of [jobs], in order, of which at least one of the six fields
    (title, company name, category, job type, work model, seniority level),
    taken alone and put in lower case by [toLowerCase], contains the
    lower-case form of [t]; for the empty text every posting is kept.  The
    comparison is the one of the code, whatever letters [toLowerCase]
    folds. *)
Theorem searchJobs_keeps_postings_with_a_matching_field :
  forall (s : State) (t : string),
    filteredJobs (searchJobs s t s)
    = filter (some_field_includes (toLowerCase t)) (jobs s)
    /\ (forall job, some_field_includes (toLowerCase t) job = true
                    <-> field_matches t job)
    /\ (forall job, In job (filteredJobs (searchJobs s t s))
                    <-> In job (jobs s) /\ field_matches t job)
    /\ filteredJobs (searchJobs s "" s) = jobs s.
Proof.
  intros s t. split; [apply searchJobs_filter|].
  split; [intros job; apply some_field_includes_matches|].
  split; [|reflexivity].
  intros job. rewrite searchJobs_filter, filter_In.
  now rewrite some_field_includes_matches.
Qed.

(** C7: from the screen that shows [s], [searchJobs("")] makes
    [filteredJobs] the list [jobs], same elements in the same order. *)
Theorem searchJobs_empty_restores_all :
  forall s : State, filteredJobs (searchJobs s "" s) = jobs s.
Proof. intros s. reflexivity. Qed.

Lemma searchJobs_touches_view_only (env : State) (t : string) (s : State) :
  jobs (searchJobs env t s) = jobs s
  /\ savedJobs (searchJobs env t s) = savedJobs s
  /\ page (searchJobs env t s) = page s
  /\ loading (searchJobs env t s) = loading s
  /\ loadingMore (searchJobs env t s) = loadingMore s.
Proof.
  unfold searchJobs. destruct (String.eqb t ""); simpl; repeat split; reflexivity.
Qed.

(** C10: [searchJobs(t)] writes [filteredJobs] and nothing else, for every
    text and from every render. *)
Theorem searchJobs_frame :
  forall (env : State) (t : string) (s : State),
    jobs (searchJobs env t s) = jobs s
    /\ savedJobs (searchJobs env t s) = savedJobs s
    /\ page (searchJobs env t s) = page s
    /\ loading (searchJobs env t s) = loading s
    /\ loadingMore (searchJobs env t s) = loadingMore s.
Proof.
  intros env t s. unfold searchJobs.
  destruct (String.eqb t ""); simpl; repeat split; reflexivity.
Qed.

(** ** Saved jobs *)

Lemma State_ext (s1 s2 : State) :
  savedJobs s1 = savedJobs s2 -> jobs s1 = jobs s2 ->
  filteredJobs s1 = filteredJobs s2 -> loading s1 = loading s2 ->
  loadingMore s1 = loadingMore s2 -> page s1 = page s2 -> s1 = s2.
Proof. destruct s1, s2; simpl; intros; subst; reflexivity. Qed.

Lemma find_by_id_none (jobId : string) (l : list Job) :
  find_by_id jobId l = None <-> ~ In jobId (ids l).
Proof.
  unfold find_by_id, ids. induction l as [|j l IH]; simpl.
  - split; [intros _ [] | reflexivity].
  - destruct (String.eqb (id j) jobId) eqn:E.
    + apply String.eqb_eq in E. split; [discriminate | intros H; elim H; now left].
    + apply String.eqb_neq in E. rewrite IH. split.
      * intros H [H1|H1]; [congruence | now apply H].
      * intros H H1. apply H. now right.
Qed.

Lemma find_by_id_some (jobId : string) (l : list Job) :
  In jobId (ids l) -> exists j, find_by_id jobId l = Some j.
Proof.
  intros H. destruct (find_by_id jobId l) as [j|] eqn:E; [eauto|].
  apply find_by_id_none in E. contradiction.
Qed.

Lemma savedJobs_addJob (job : Job) (s : State) :
  savedJobs (addJob job s)
  = match find_by_id (id job) (savedJobs s) with
    | Some _ => savedJobs s
    | None => (savedJobs s ++ [job])%list
    end.
Proof. reflexivity. Qed.

Lemma savedJobs_removeJob (jobId : string) (s : State) :
  savedJobs (removeJob jobId s)
  = filter (fun job => negb (String.eqb (id job) jobId)) (savedJobs s).
Proof. reflexivity. Qed.

Lemma addJob_present (job : Job) (s : State) :
  In (id job) (ids (savedJobs s)) -> savedJobs (addJob job s) = savedJobs s.
Proof.
  intros H. rewrite savedJobs_addJob.
  destruct (find_by_id_some _ _ H) as [j ->]. reflexivity.
Qed.

Lemma addJob_absent (job : Job) (s : State) :
  ~ In (id job) (ids (savedJobs s)) ->
  savedJobs (addJob job s) = (savedJobs s ++ [job])%list.
Proof.
  intros H. rewrite savedJobs_addJob.
  apply find_by_id_none in H. now rewrite H.
Qed.

Lemma addJob_then_present (job : Job) (s : State) :
  In (id job) (ids (savedJobs (addJob job s))).
Proof.
  destruct (in_dec string_dec (id job) (ids (savedJobs s))) as [H|H].
  - now rewrite addJob_present.
  - rewrite addJob_absent by exact H. unfold ids.
    rewrite map_app. apply in_or_app. right. now left.
Qed.

Lemma NoDup_snoc {A : Type} (l : list A) (x : A) :
  NoDup l -> ~ In x l -> NoDup (l ++ [x]).
Proof.
  induction 1 as [|y l Hy Hnd IH]; intros Hx; simpl.
  - constructor; [intros [] | constructor].
  - constructor.
    + intros Hin. apply in_app_or in Hin. destruct Hin as [Hin|[Hin|[]]].
      * contradiction.
      * subst. apply Hx. now left.
    + apply IH. intros Hin. apply Hx. now right.
Qed.

(** Dropping postings keeps the identifiers pairwise distinct. *)
Lemma ids_filter_distinct (keep : Job -> bool) (saved : list Job) :
  NoDup (ids saved) -> NoDup (ids (filter keep saved)).
Proof.
  unfold ids. induction saved as [|j saved IH]; simpl; intros Hnd.
  - constructor.
  - apply NoDup_cons_iff in Hnd. destruct Hnd as [Hfresh Hnd].
    destruct (keep j); simpl; [|now apply IH].
    constructor; [|now apply IH].
    rewrite in_map_iff. intros [j' [Hid Hin]].
    apply filter_In in Hin. apply Hfresh.
    rewrite in_map_iff. exists j'. tauto.
Qed.

Lemma addJob_keeps_distinct (job : Job) (s : State) :
  NoDup (ids (savedJobs s)) -> NoDup (ids (savedJobs (addJob job s))).
Proof.
  intros Hnd.
  destruct (in_dec string_dec (id job) (ids (savedJobs s))) as [H|H].
  - now rewrite addJob_present.
  - rewrite addJob_absent by exact H. unfold ids in *. rewrite map_app. simpl.
    now apply NoDup_snoc.
Qed.

Lemma removeJob_keeps_distinct (jobId : string) (s : State) :
  NoDup (ids (savedJobs s)) -> NoDup (ids (savedJobs (removeJob jobId s))).
Proof.
  intros Hnd. rewrite savedJobs_removeJob. now apply ids_filter_distinct.
Qed.

(** In a list without repetition, a member occurs once. *)
Lemma count_occ_distinct (l : list string) (x : string) :
  NoDup l -> In x l -> count_occ string_dec l x = 1%nat.
Proof.
  intros Hnd Hin. apply (proj1 (NoDup_count_occ string_dec l)) with (x := x) in Hnd.
  apply (count_occ_In string_dec) in Hin. lia.
Qed.

(** C8: [addJob(j)] does nothing when a posting with the identifier of [j]
    is already saved and otherwise appends [j] at the end; a second
    [addJob(j)] changes nothing; and where the saved identifiers are
    pairwise distinct, as they are in every state the store reaches, the
    identifier of [j] occurs exactly once after the two calls. *)
Theorem addJob_idempotent :
  forall (j : Job) (s : State),
    (In (id j) (ids (savedJobs s)) ->
       savedJobs (addJob j s) = savedJobs s)
    /\ (~ In (id j) (ids (savedJobs s)) ->
       savedJobs (addJob j s) = (savedJobs s ++ [j])%list)
    /\ addJob j (addJob j s) = addJob j s
    /\ (NoDup (ids (savedJobs s)) ->
       count_occ string_dec (ids (savedJobs (addJob j (addJob j s)))) (id j)
       = 1%nat).
Proof.
  intros j s.
  assert (Hsame : savedJobs (addJob j (addJob j s)) = savedJobs (addJob j s))
    by (apply addJob_present, addJob_then_present).
  split; [apply addJob_present|].
  split; [apply addJob_absent|].
  split.
  - apply State_ext; try reflexivity. exact Hsame.
  - intros Hnd. rewrite Hsame. apply count_occ_distinct.
    + now apply addJob_keeps_distinct.
    + apply addJob_then_present.
Qed.

Lemma addJob_idempotent_witness :
  (~ In (id job_a) (ids (savedJobs page1_loaded))
   /\ savedJobs (addJob job_a page1_loaded) = [job_a])
  /\ (In (id job_a) (ids (savedJobs (addJob job_a page1_loaded)))
      /\ savedJobs (addJob job_a (addJob job_a page1_loaded)) = [job_a])
  /\ (NoDup (ids (savedJobs page1_loaded))
      /\ count_occ string_dec
           (ids (savedJobs (addJob job_a (addJob job_a page1_loaded))))
           (id job_a) = 1%nat).
Proof.
  assert (Habsent : ~ In (id job_a) (ids (savedJobs page1_loaded)))
    by (simpl; tauto).
  assert (Hpresent : In (id job_a) (ids (savedJobs (addJob job_a page1_loaded))))
    by (simpl; tauto).
  assert (Hnd : NoDup (ids (savedJobs page1_loaded))) by constructor.
  split; [split; [exact Habsent|]|split; [split; [exact Hpresent|]|split; [exact Hnd|]]].
  - exact (proj1 (proj2 (addJob_idempotent job_a page1_loaded)) Habsent).
  - exact (proj1 (addJob_idempotent job_a (addJob job_a page1_loaded)) Hpresent).
  - exact (proj2 (proj2 (proj2 (addJob_idempotent job_a page1_loaded))) Hnd).
Defined.

(** ** Fetching and paging *)

Lemma jobsWithIds_throws (uuid : nat -> string) (l : list (option Raw.t)) :
  forall k, fetch_fails (JobsArray l) = true -> jobsWithIds uuid k l = None.
Proof.
  induction l as [|[job|] l IH]; simpl; intros k H.
  - discriminate.
  - now rewrite IH.
  - reflexivity.
Qed.

(** The guard of [fetchJobs] looks at the flags of the first render, which
    are both false: the function always goes on to the request. *)
Lemma fetchJobs_runs (pageNumber : Z) (append : bool) (response : Response)
      (uuid : nat -> string) (s : State) :
  fetchJobs pageNumber append response uuid s
  = fetchJobs_end
      (fetchJobs_try append response uuid
         (if pageNumber =? 1 then setLoading (Value true) s
          else setLoadingMore (Value true) s)).
Proof.
  unfold fetchJobs, fetchJobs_of, fetchJobs_begin. simpl.
  destruct (pageNumber =? 1); reflexivity.
Qed.

Lemma fetchJobs_try_frame (append : bool) (response : Response)
      (uuid : nat -> string) (s : State) :
  let s' := fetchJobs_try append response uuid s in
  savedJobs s' = savedJobs s /\ page s' = page s
  /\ loading s' = loading s /\ loadingMore s' = loadingMore s.
Proof.
  destruct response as [| | |l]; simpl; auto.
  destruct (jobsWithIds uuid 0 l); simpl; auto.
  destruct append; simpl; auto.
Qed.

Lemma fetchJobs_frame (pageNumber : Z) (append : bool) (response : Response)
      (uuid : nat -> string) (s : State) :
  savedJobs (fetchJobs pageNumber append response uuid s) = savedJobs s
  /\ page (fetchJobs pageNumber append response uuid s) = page s.
Proof.
  rewrite fetchJobs_runs. unfold fetchJobs_end. simpl.
  destruct (fetchJobs_try_frame append response uuid
              (if pageNumber =? 1 then setLoading (Value true) s
               else setLoadingMore (Value true) s)) as (H1 & H2 & _).
  rewrite H1, H2. destruct (pageNumber =? 1); auto.
Qed.

Lemma loadMoreJobs_savedJobs (env : State) (pageNumber : option Z)
      (response : Response) (uuid : nat -> string) (s : State) :
  savedJobs (loadMoreJobs env pageNumber response uuid s) = savedJobs s.
Proof.
  unfold loadMoreJobs.
  destruct (loadingMore env || loading env)%bool; [reflexivity|].
  destruct (searchJobs_touches_view_only env ""
              (fetchJobs (match pageNumber with Some p => p | None => page env + 1 end)
                 true response uuid
                 (setPage (Value (match pageNumber with Some p => p | None => page env + 1 end))
                    (setLoadingMore (Value true) s)))) as (_ & H & _).
  rewrite H. now rewrite (proj1 (fetchJobs_frame _ _ _ _ _)).
Qed.

Lemma step_keeps_distinct (s s' : State) :
  step s s' -> NoDup (ids (savedJobs s)) -> NoDup (ids (savedJobs s')).
Proof.
  intros Hstep Hnd. destruct Hstep.
  - now rewrite (proj1 (fetchJobs_frame _ _ _ _ _)).
  - now rewrite loadMoreJobs_savedJobs.
  - now rewrite (proj1 (proj2 (searchJobs_touches_view_only _ _ _))).
  - now apply addJob_keeps_distinct.
  - now apply removeJob_keeps_distinct.
Qed.

Lemma reachable_distinct (s : State) :
  reachable s -> NoDup (ids (savedJobs s)).
Proof.
  induction 1 as [|s s' _ IH Hstep].
  - constructor.
  - eapply step_keeps_distinct; eauto.
Qed.

(** C9: in every state the store reaches, the identifiers of the saved
    postings are pairwise distinct; every operation preserves this; and
    [fetchJobs], [loadMoreJobs] and [searchJobs] leave [savedJobs] as it
    is, so that only [addJob] and [removeJob] change it. *)
Theorem savedJobs_ids_distinct :
  (forall s, reachable s -> NoDup (ids (savedJobs s)))
  /\ (forall s s', NoDup (ids (savedJobs s)) -> step s s' ->
                   NoDup (ids (savedJobs s')))
  /\ (forall pageNumber append response uuid s,
         savedJobs (fetchJobs pageNumber append response uuid s) = savedJobs s)
  /\ (forall env pageNumber response uuid s,
         savedJobs (loadMoreJobs env pageNumber response uuid s) = savedJobs s)
  /\ (forall env text s,
         savedJobs (searchJobs env text s) = savedJobs s).
Proof.
  split; [exact reachable_distinct|].
  split; [intros s s' Hnd Hstep; eapply step_keeps_distinct; eauto|].
  split; [intros; apply fetchJobs_frame|].
  split; [intros; apply loadMoreJobs_savedJobs|].
  intros env text s. apply searchJobs_touches_view_only.
Qed.

Lemma fetchJobs_try_fails (append : bool) (response : Response)
      (uuid : nat -> string) (s : State) :
  fetch_fails response = true ->
  fetchJobs_try append response uuid s = s.
Proof.
  destruct response as [| | |l]; try reflexivity.
  intros H. simpl. now rewrite jobsWithIds_throws.
Qed.

(** C4: a fetch that fails leaves [jobs], [filteredJobs], [savedJobs] and
    [page] as they were, and however [fetchJobs] ends, with or without
    records, [loading] and [loadingMore] are both false afterwards. *)
Theorem fetchJobs_failure_keeps_state_and_flags_clear :
  forall pageNumber append response uuid s,
    loading (fetchJobs pageNumber append response uuid s) = false
    /\ loadingMore (fetchJobs pageNumber append response uuid s) = false
    /\ (fetch_fails response = true ->
        jobs (fetchJobs pageNumber append response uuid s) = jobs s
        /\ filteredJobs (fetchJobs pageNumber append response uuid s)
           = filteredJobs s
        /\ savedJobs (fetchJobs pageNumber append response uuid s)
           = savedJobs s
        /\ page (fetchJobs pageNumber append response uuid s) = page s).
Proof.
  intros pageNumber append response uuid s.
  rewrite fetchJobs_runs. unfold fetchJobs_end.
  split; [reflexivity|]. split; [reflexivity|].
  intros Hfail. rewrite fetchJobs_try_fails by exact Hfail.
  destruct (pageNumber =? 1); simpl; auto.
Qed.

(** C3, on the code: the store has [loadingMore] set (the very state in
    which [loadMoreJobs] calls [fetchJobs]), yet [fetchJobs] goes through
    with the request and appends the page to [jobs] and [filteredJobs].
    Its guard reads the flags of the first render, never those of the
    store, so it does not stop at any state. *)
Theorem fetchJobs_runs_while_busy :
  loadingMore busy_loading_more = true
  /\ jobs (fetchJobs 2 true one_bare_record sample_uuid busy_loading_more)
     = [job_a; jobWithId "id-b" Raw.empty]
  /\ filteredJobs (fetchJobs 2 true one_bare_record sample_uuid busy_loading_more)
     = [job_a; jobWithId "id-b" Raw.empty]
  /\ jobs (fetchJobs 2 true one_bare_record sample_uuid busy_loading_more)
     <> jobs busy_loading_more
  /\ (forall pageNumber s, fetchJobs_begin initial pageNumber s <> None).
Proof.
  split; [reflexivity|]. split; [reflexivity|]. split; [reflexivity|].
  split; [simpl; discriminate|].
  intros pageNumber s. unfold fetchJobs_begin. simpl.
  destruct (pageNumber =? 1); discriminate.
Qed.

(** What [loadMoreJobs] comes to when the render it belongs to shows [s]
    and nothing is in flight: the cursor moves on by one, a page that
    arrives is appended to [jobs], and [filteredJobs] is set to the [jobs]
    of the render, that is, to the list as it was before the page came. *)
Lemma loadMoreJobs_idle (response : Response) (uuid : nat -> string) (s : State) :
  loading s = false -> loadingMore s = false ->
  page (loadMoreJobs s None response uuid s) = page s + 1
  /\ filteredJobs (loadMoreJobs s None response uuid s) = jobs s
  /\ (forall l new, response = JobsArray l -> jobsWithIds uuid 0 l = Some new ->
        jobs (loadMoreJobs s None response uuid s) = (jobs s ++ new)%list).
Proof.
  intros Hl Hm. unfold loadMoreJobs. rewrite Hl, Hm.
  cbv zeta. cbn [orb]. split; [|split].
  - rewrite (proj1 (proj2 (proj2 (searchJobs_touches_view_only _ _ _)))).
    now rewrite (proj2 (fetchJobs_frame _ _ _ _ _)).
  - reflexivity.
  - intros l new -> Hnew.
    rewrite (proj1 (searchJobs_touches_view_only _ _ _)).
    rewrite fetchJobs_runs. unfold fetchJobs_end, fetchJobs_try.
    rewrite Hnew. destruct (page s + 1 =? 1); reflexivity.
Qed.

(** C5, on the code: page 1 is loaded and shown, [loadMoreJobs()] fetches
    page 2 and appends its record to [jobs], the cursor goes to 2, but
    [filteredJobs] ends as the old one-element list: the [jobs] that the
    closing [searchJobs('')] reads is the constant of the render that
    started the load, from before the page arrived. *)
Theorem loadMoreJobs_leaves_new_page_out_of_view :
  page (loadMoreJobs page1_loaded None one_bare_record sample_uuid page1_loaded) = 2
  /\ jobs (loadMoreJobs page1_loaded None one_bare_record sample_uuid page1_loaded)
     = [job_a; jobWithId "id-b" Raw.empty]
  /\ filteredJobs (loadMoreJobs page1_loaded None one_bare_record sample_uuid page1_loaded)
     = [job_a]
  /\ filteredJobs (loadMoreJobs page1_loaded None one_bare_record sample_uuid page1_loaded)
     <> jobs (loadMoreJobs page1_loaded None one_bare_record sample_uuid page1_loaded).
Proof.
  split; [reflexivity|]. split; [reflexivity|]. split; [reflexivity|].
  simpl. discriminate.
Qed.

(** C2, on the code: [Number(x) ?? null] is [Number(x)] whatever [x] is, as
    [Number] never answers [null] or [undefined].  For a record without the
    numeric fields the posting built by [fetchJobs] holds [NaN] in all four
    of them, and no record at all makes any of them [null]. *)
Theorem fetchJobs_stores_NaN_for_missing_numbers :
  jobs (fetchJobs 1 false one_bare_record sample_uuid initial)
  = [jobWithId "id-b" Raw.empty]
  /\ minSalary (jobWithId "id-b" Raw.empty) = JNumber NaN
  /\ maxSalary (jobWithId "id-b" Raw.empty) = JNumber NaN
  /\ pubDate (jobWithId "id-b" Raw.empty) = JNumber NaN
  /\ expiryDate (jobWithId "id-b" Raw.empty) = JNumber NaN
  /\ (forall theId job,
        minSalary (jobWithId theId job) <> null
        /\ maxSalary (jobWithId theId job) <> null
        /\ pubDate (jobWithId theId job) <> null
        /\ expiryDate (jobWithId theId job) <> null).
Proof.
  repeat (split; [reflexivity|]).
  intros theId job. simpl. repeat split; discriminate.
Qed.


(** ** Expiry *)

Lemma Qlt_bool_iff (x y : Q) : Qlt_bool x y = true <-> (x < y)%Q.
Proof.
  unfold Qlt_bool. rewrite negb_true_iff.
  split.
  - intros H. apply Qnot_le_lt. intros Hle.
    apply Qle_bool_iff in Hle. congruence.
  - intros H. destruct (Qle_bool y x) eqn:E; [|reflexivity].
    apply Qle_bool_iff in E. apply Qlt_not_le in H. contradiction.
Qed.

Lemma now_nonneg (now : Z) : 0 <= now -> (0 <= inject_Z now / 1000)%Q.
Proof.
  intros H. apply Qle_shift_div_l; [reflexivity|].
  rewrite Qmult_0_l. change 0%Q with (inject_Z 0). now rewrite <- Zle_Qle.
Qed.

Lemma today_is_now_over_1000 (now : Z) :
  num_div (Date_now now) (Fin 1000) = Fin (inject_Z now / 1000).
Proof. reflexivity. Qed.

(** How [expiring_soon] reads for a posting whose expiry is a number. *)
Lemma expiring_soon_number (now : Z) (job : Job) (e : Q) :
  expiryDate job = JNumber (Fin e) ->
  expiring_soon now job
  = (negb (Qeq_bool e 0) && Qlt_bool (e - inject_Z now / 1000) 432000)%bool.
Proof.
  intros He. unfold expiring_soon, isExpiryNear, and_then.
  rewrite He, today_is_now_over_1000. simpl.
  destruct (Qeq_bool e 0); reflexivity.
Qed.

(** C6: with the clock at [now] milliseconds after the epoch, a posting
    whose [expiryDate] (in seconds) lies 2 days after the current time is
    shown as expiring soon, and one whose [expiryDate] lies 10 days after
    it is not. *)
Theorem expiring_soon_at_two_days_not_at_ten :
  forall (now : Z) (job : Job) (e : Q),
    0 <= now ->
    expiryDate job = JNumber (Fin e) ->
    ((e == inject_Z now / 1000 + 2 * 86400)%Q ->
       expiring_soon now job = true)
    /\ ((e == inject_Z now / 1000 + 10 * 86400)%Q ->
       expiring_soon now job = false).
Proof.
  intros now job e Hnow He. rewrite (expiring_soon_number now job e He).
  pose proof (now_nonneg now Hnow) as Hq.
  split; intros Heq.
  - apply andb_true_intro. split.
    + apply negb_true_iff. destruct (Qeq_bool e 0) eqn:E; [|reflexivity].
      apply Qeq_bool_iff in E. lra.
    + apply Qlt_bool_iff. lra.
  - apply andb_false_intro2.
    destruct (Qlt_bool (e - inject_Z now / 1000) 432000) eqn:E; [|reflexivity].
    apply Qlt_bool_iff in E. lra.
Qed.

(** Neither posting is reported as expired by the list screens. *)
Lemma isExpired_future (now : Z) (e : Q) :
  (inject_Z now / 1000 < e)%Q ->
  truthy (isExpired now (JNumber (Fin e))) = false.
Proof.
  intros H. unfold isExpired, and_then. simpl.
  destruct (Qeq_bool e 0) eqn:E0; simpl; [now rewrite E0|].
  destruct (Qlt_bool (e * 1000) (inject_Z now)) eqn:E; [|reflexivity].
  apply Qlt_bool_iff in E.
  assert (inject_Z now / 1000 * 1000 == inject_Z now)%Q by (field).
  nra.
Qed.

(** ** More on search *)

Lemma string_app_assoc (a b c : string) : (a ++ b) ++ c = a ++ b ++ c.
Proof. induction a as [|x a IH]; simpl; [reflexivity | now rewrite IH]. Qed.

Lemma occurs_in_trans (p q s : string) :
  occurs_in p q -> occurs_in q s -> occurs_in p s.
Proof.
  intros [b1 [a1 Hq]] [b2 [a2 Hs]]. exists (b2 ++ b1), (a1 ++ a2).
  rewrite Hs, Hq. now rewrite !string_app_assoc.
Qed.

Lemma picked_from_refl {A : Type} (l : list A) : picked_from l l.
Proof. induction l; constructor; assumption. Qed.

Lemma picked_from_filters {A : Type} (f g : A -> bool) (l : list A) :
  (forall x, f x = true -> g x = true) ->
  picked_from (filter f l) (filter g l).
Proof.
  intros Hfg. induction l as [|x l IH]; simpl; [constructor|].
  destruct (f x) eqn:Ef.
  - rewrite (Hfg x Ef). now constructor.
  - destruct (g x); [now constructor | exact IH].
Qed.

Lemma picked_from_filter {A : Type} (f : A -> bool) (l : list A) :
  picked_from (filter f l) l.
Proof.
  induction l as [|x l IH]; simpl; [constructor|].
  destruct (f x); now constructor.
Qed.

Lemma picked_from_more {A : Type} (view all extra : list A) :
  picked_from view all -> picked_from (view ++ extra) (all ++ extra)%list.
Proof.
  induction 1; simpl; try (constructor; assumption).
  apply picked_from_refl.
Qed.

Lemma picked_from_longer {A : Type} (l extra : list A) :
  picked_from l (l ++ extra)%list.
Proof.
  induction l as [|x l IH]; simpl.
  - induction extra; constructor; assumption.
  - now constructor.
Qed.

(** X1: Typing on narrows the view: when the lower-case form of the text [t]
    occurs in the lower-case form of the text [t'], both as [toLowerCase]
    gives them, the postings shown for [t'] are among those shown for [t],
    in the same order. *)
Theorem searchJobs_longer_text_narrows :
  forall (s : State) (t t' : string),
    occurs_in (toLowerCase t) (toLowerCase t') ->
    picked_from (filteredJobs (searchJobs s t' s))
                (filteredJobs (searchJobs s t s)).
Proof.
  intros s t t' Hocc. rewrite !searchJobs_filter.
  apply picked_from_filters. intros job H.
  apply some_field_includes_matches in H.
  apply some_field_includes_matches.
  destruct H as [field [Hin H]]. exists field. split; [exact Hin|].
  eapply occurs_in_trans; eauto.
Qed.

(** X2: The letter case of the text does not count: two texts with the same
    lower-case form give the same view. *)
Theorem searchJobs_ignores_case_of_text :
  forall (s : State) (t t' : string),
    toLowerCase t = toLowerCase t' ->
    searchJobs s t s = searchJobs s t' s.
Proof.
  intros s t t' H.
  apply State_ext; try (unfold searchJobs;
                        destruct (String.eqb t ""), (String.eqb t' "");
                        reflexivity).
  rewrite !searchJobs_filter. now rewrite H.
Qed.

(** X3: Searching the same text again, from the screen redrawn after the first
    search, changes nothing; and the view is always made of postings of
    [jobs], in their order. *)
Theorem searchJobs_twice :
  forall (s : State) (t : string),
    searchJobs (searchJobs s t s) t (searchJobs s t s) = searchJobs s t s
    /\ picked_from (filteredJobs (searchJobs s t s)) (jobs s).
Proof.
  intros s t. split.
  - unfold searchJobs. destruct (String.eqb t ""); reflexivity.
  - unfold searchJobs. destruct (String.eqb t ""); simpl.
    + apply picked_from_refl.
    + apply picked_from_filter.
Qed.

(** ** More on saved jobs *)

Lemma filter_other_ids (jobId : string) (l : list Job) :
  ~ In jobId (ids l) ->
  filter (fun job => negb (String.eqb (id job) jobId)) l = l.
Proof.
  unfold ids. induction l as [|j l IH]; simpl; intros H; [reflexivity|].
  destruct (String.eqb (id j) jobId) eqn:E.
  - apply String.eqb_eq in E. elim H. now left.
  - simpl. rewrite IH; [reflexivity|]. intros Hin. apply H. now right.
Qed.

Lemma removeJob_id_gone (jobId : string) (s : State) :
  ~ In jobId (ids (savedJobs (removeJob jobId s))).
Proof.
  rewrite savedJobs_removeJob. unfold ids. rewrite in_map_iff.
  intros [j [Hid Hin]]. apply filter_In in Hin. destruct Hin as [_ Hneq].
  apply negb_true_iff, String.eqb_neq in Hneq. contradiction.
Qed.

(** X4: [removeJob(jobId)] leaves the store as it is when no saved posting has
    the identifier; in every case no saved posting has it afterwards, and
    the postings with another identifier all stay, in their order. *)
Theorem removeJob_removes_only_that_id :
  forall (jobId : string) (s : State),
    (~ In jobId (ids (savedJobs s)) -> removeJob jobId s = s)
    /\ ~ In jobId (ids (savedJobs (removeJob jobId s)))
    /\ picked_from (savedJobs (removeJob jobId s)) (savedJobs s)
    /\ (forall job, id job <> jobId ->
          (In job (savedJobs (removeJob jobId s)) <-> In job (savedJobs s))).
Proof.
  intros jobId s. rewrite savedJobs_removeJob.
  split; [|split; [|split]].
  - intros H. apply State_ext; try reflexivity.
    rewrite savedJobs_removeJob. now apply filter_other_ids.
  - rewrite <- savedJobs_removeJob. apply removeJob_id_gone.
  - apply picked_from_filter.
  - intros job Hneq. rewrite filter_In.
    apply String.eqb_neq in Hneq. rewrite Hneq. simpl.
    split; [intros [H _]; exact H | intros H; split; [exact H | reflexivity]].
Qed.

(** X5: Saving a posting whose identifier is not saved yet and removing it
    again gives back the store as it was. *)
Theorem removeJob_undoes_addJob :
  forall (job : Job) (s : State),
    ~ In (id job) (ids (savedJobs s)) ->
    removeJob (id job) (addJob job s) = s.
Proof.
  intros job s H. apply State_ext; try reflexivity.
  rewrite savedJobs_removeJob, (addJob_absent job s H).
  rewrite filter_app. simpl. rewrite String.eqb_refl. simpl.
  rewrite app_nil_r. now apply filter_other_ids.
Qed.

Lemma find_by_id_first (jobId : string) (l m : list Job) (j : Job) :
  find_by_id jobId l = Some j -> find_by_id jobId (l ++ m) = Some j.
Proof.
  unfold find_by_id. induction l as [|x l IH]; simpl; [discriminate|].
  destruct (String.eqb (id x) jobId); auto.
Qed.

(** X6: The Save button of a posting is disabled once [addJob] was called
    on it and enabled again once [removeJob] was called on its identifier;
    and when a posting with the same identifier was saved before, [addJob]
    drops the new posting: the store stays as it was, the saved list holds
    the old posting and is not made longer. *)
Theorem save_button_follows_saved_jobs :
  forall (item : Job) (s : State),
    save_disabled item (addJob item s) = true
    /\ save_disabled item (removeJob (id item) s) = false
    /\ (forall old, isSaved item s = Some old ->
          addJob item s = s
          /\ isSaved item (addJob item s) = Some old).
Proof.
  intros item s. unfold save_disabled, isSaved. split; [|split].
  - destruct (find_by_id_some _ _ (addJob_then_present item s)) as [j ->].
    reflexivity.
  - pose proof (removeJob_id_gone (id item) s) as H.
    apply find_by_id_none in H. now rewrite H.
  - intros old H.
    assert (Hsaved : savedJobs (addJob item s) = savedJobs s)
      by (rewrite savedJobs_addJob; now rewrite H).
    split.
    + apply State_ext; try reflexivity. exact Hsaved.
    + now rewrite Hsaved.
Qed.

(** ** More on fetching *)

Lemma jobsWithIds_builds (uuid : nat -> string) (l : list (option Raw.t)) :
  forall k, fetch_fails (JobsArray l) = false ->
  exists new,
    jobsWithIds uuid k l = Some new
    /\ ids new = map uuid (seq k (List.length l))
    /\ Forall fields_filled new.
Proof.
  induction l as [|[job|] l IH]; simpl; intros k H.
  - exists []. repeat split. constructor.
  - destruct (IH (S k) H) as [rest [Hrest [Hids Hfill]]].
    exists (jobWithId (uuid k) job :: rest). rewrite Hrest.
    repeat split.
    + simpl. now rewrite Hids.
    + constructor; [|exact Hfill].
      unfold fields_filled, searched_fields, jobWithId, or_else. simpl.
      repeat constructor;
        match goal with
        | |- context [match ?v with Some _ => _ | None => _ end] =>
            destruct v as [x|]; [destruct (String.eqb x "") eqn:E|];
            try discriminate;
            apply String.eqb_neq in E; exact E
        end.
  - discriminate.
Qed.

(** X7: A fetch that brings an array of records builds one posting per record,
    in the order of the array.  With [append] false both [jobs] and
    [filteredJobs] become the new postings; with [append] true the new
    postings go at the end of both, whether or not they suit the text the
    view was filtered by.  Both flags are false afterwards. *)
Theorem fetchJobs_success :
  forall pageNumber append l uuid s,
    fetch_fails (JobsArray l) = false ->
    exists new,
      jobsWithIds uuid 0 l = Some new
      /\ List.length new = List.length l
      /\ jobs (fetchJobs pageNumber append (JobsArray l) uuid s)
         = (if append then jobs s ++ new else new)%list
      /\ filteredJobs (fetchJobs pageNumber append (JobsArray l) uuid s)
         = (if append then filteredJobs s ++ new else new)%list
      /\ loading (fetchJobs pageNumber append (JobsArray l) uuid s) = false
      /\ loadingMore (fetchJobs pageNumber append (JobsArray l) uuid s) = false.
Proof.
  intros pageNumber append l uuid s H.
  destruct (jobsWithIds_builds uuid l 0%nat H) as [new [Hnew [Hids _]]].
  exists new. split; [exact Hnew|]. split.
  - apply (f_equal (@List.length string)) in Hids. unfold ids in Hids.
    now rewrite !length_map, length_seq in Hids.
  - rewrite fetchJobs_runs. unfold fetchJobs_end, fetchJobs_try.
    rewrite Hnew. destruct append, (pageNumber =? 1); simpl; auto.
Qed.

(** X8: The identifiers of a fetched page are the successive answers of
    [uuid.v4()]; they are pairwise distinct as soon as these answers are. *)
Theorem fetched_ids_are_the_uuids :
  forall l uuid new,
    jobsWithIds uuid 0 l = Some new ->
    ids new = map uuid (seq 0 (List.length l))
    /\ ((forall i k, (i < List.length l)%nat -> (k < List.length l)%nat ->
                     uuid i = uuid k -> i = k) ->
        NoDup (ids new)).
Proof.
  intros l uuid new Hnew.
  assert (Hok : fetch_fails (JobsArray l) = false).
  { destruct (fetch_fails (JobsArray l)) eqn:E; [|reflexivity].
    rewrite (jobsWithIds_throws uuid l 0%nat E) in Hnew. discriminate. }
  destruct (jobsWithIds_builds uuid l 0%nat Hok) as [new' [Hnew' [Hids _]]].
  assert (new' = new) by congruence. subst new'.
  split; [exact Hids|]. intros Hinj. rewrite Hids.
  assert (Hgen : forall n, (n <= List.length l)%nat -> NoDup (map uuid (seq 0 n))).
  { induction n as [|n IH]; intros Hn; [constructor|].
    rewrite seq_S, map_app. simpl. apply NoDup_snoc.
    - apply IH. lia.
    - rewrite in_map_iff. intros [i [Hi Hin]]. apply in_seq in Hin.
      assert (i = n) by (apply Hinj; [lia | lia | exact Hi]). lia. }
  apply Hgen. lia.
Qed.

Lemma fetchJobs_jobs_filled (pageNumber : Z) (append : bool)
      (response : Response) (uuid : nat -> string) (s : State) :
  Forall fields_filled (jobs s) ->
  Forall fields_filled (jobs (fetchJobs pageNumber append response uuid s)).
Proof.
  intros Hs. destruct (fetch_fails response) eqn:E.
  - rewrite fetchJobs_runs, (fetchJobs_try_fails _ _ _ _ E).
    destruct (pageNumber =? 1); exact Hs.
  - destruct response as [| | |l]; try discriminate.
    destruct (jobsWithIds_builds uuid l 0%nat E) as [new [Hnew [_ Hfill]]].
    rewrite fetchJobs_runs. unfold fetchJobs_end, fetchJobs_try.
    rewrite Hnew. destruct append, (pageNumber =? 1); simpl;
      try exact Hfill; apply Forall_app; split; assumption.
Qed.

(** X9: In every state the store reaches, no posting of [jobs] has an empty
    title, company name, category, job type, work model or seniority
    level: a record that lacks one, or has it empty, gets the default
    text. *)
Theorem fetched_postings_have_their_texts :
  (forall theId job, fields_filled (jobWithId theId job))
  /\ (forall s, reachable s -> Forall fields_filled (jobs s)).
Proof.
  split.
  - intros theId job.
    destruct (jobsWithIds_builds (fun _ => theId) [Some job] 0%nat eq_refl)
      as [new [Hnew [_ Hfill]]].
    simpl in Hnew. injection Hnew as <-. now inversion Hfill.
  - induction 1 as [|s s' _ IH Hstep]; [constructor|].
    destruct Hstep.
    + now apply fetchJobs_jobs_filled.
    + unfold loadMoreJobs.
      destruct (loadingMore env || loading env)%bool; [exact IH|].
      rewrite (proj1 (searchJobs_touches_view_only _ _ _)).
      now apply fetchJobs_jobs_filled.
    + now rewrite (proj1 (searchJobs_touches_view_only _ _ _)).
    + exact IH.
    + exact IH.
Qed.

(** X10: [loadMoreJobs] called from a render in which [loading] or
    [loadingMore] is set does nothing at all: no request, no move of the
    cursor, no change of the view. *)
Theorem loadMoreJobs_busy_render_is_noop :
  forall env pageNumber response uuid s,
    (loading env || loadingMore env)%bool = true ->
    loadMoreJobs env pageNumber response uuid s = s.
Proof.
  intros env pageNumber response uuid s H. unfold loadMoreJobs.
  rewrite orb_comm in H. now rewrite H.
Qed.

(** X11: A [loadMoreJobs()] whose request fails still moves the cursor on by
    one, so the page that failed is not asked for again; [jobs] stays as
    it was, the view is set back to all of [jobs], and both flags are
    false afterwards. *)
Theorem loadMoreJobs_failed_fetch_still_advances :
  forall response uuid s,
    loading s = false -> loadingMore s = false ->
    fetch_fails response = true ->
    page (loadMoreJobs s None response uuid s) = page s + 1
    /\ jobs (loadMoreJobs s None response uuid s) = jobs s
    /\ filteredJobs (loadMoreJobs s None response uuid s) = jobs s
    /\ savedJobs (loadMoreJobs s None response uuid s) = savedJobs s
    /\ loading (loadMoreJobs s None response uuid s) = false
    /\ loadingMore (loadMoreJobs s None response uuid s) = false.
Proof.
  intros response uuid s Hl Hm Hfail. unfold loadMoreJobs.
  rewrite Hl, Hm. cbv zeta. cbn [orb].
  rewrite fetchJobs_runs, (fetchJobs_try_fails _ _ _ _ Hfail).
  destruct (page s + 1 =? 1); repeat split; reflexivity.
Qed.

(** X12: Loading more after a search throws the search away: whatever the text
    was, the view afterwards is the whole of [jobs] as it stood before the
    load. *)
Theorem loadMoreJobs_discards_search :
  forall t response uuid s,
    loading s = false -> loadingMore s = false ->
    filteredJobs (loadMoreJobs (searchJobs s t s) None response uuid
                               (searchJobs s t s))
    = jobs s.
Proof.
  intros t response uuid s Hl Hm.
  destruct (searchJobs_touches_view_only s t s) as (Hj & _ & _ & Hl' & Hm').
  unfold loadMoreJobs. rewrite Hl', Hm', Hl, Hm. cbv zeta. cbn [orb].
  unfold searchJobs at 1. simpl. exact Hj.
Qed.

Lemma fetchJobs_keeps_view_picked (pageNumber : Z) (append : bool)
      (response : Response) (uuid : nat -> string) (s : State) :
  picked_from (filteredJobs s) (jobs s) ->
  picked_from (filteredJobs (fetchJobs pageNumber append response uuid s))
              (jobs (fetchJobs pageNumber append response uuid s)).
Proof.
  intros Hs. destruct (fetch_fails response) eqn:E.
  - rewrite fetchJobs_runs, (fetchJobs_try_fails _ _ _ _ E).
    destruct (pageNumber =? 1); exact Hs.
  - destruct response as [| | |l]; try discriminate.
    destruct (jobsWithIds_builds uuid l 0%nat E) as [new [Hnew _]].
    rewrite fetchJobs_runs. unfold fetchJobs_end, fetchJobs_try.
    rewrite Hnew. destruct append, (pageNumber =? 1); simpl;
      try apply picked_from_refl; now apply picked_from_more.
Qed.

Lemma fetchJobs_append_extends (pageNumber : Z) (response : Response)
      (uuid : nat -> string) (s : State) :
  exists new,
    jobs (fetchJobs pageNumber true response uuid s) = (jobs s ++ new)%list.
Proof.
  destruct (fetch_fails response) eqn:E.
  - exists []. rewrite fetchJobs_runs, (fetchJobs_try_fails _ _ _ _ E).
    rewrite app_nil_r. destruct (pageNumber =? 1); reflexivity.
  - destruct response as [| | |l]; try discriminate.
    destruct (jobsWithIds_builds uuid l 0%nat E) as [new [Hnew _]].
    exists new. rewrite fetchJobs_runs. unfold fetchJobs_end, fetchJobs_try.
    rewrite Hnew. destruct (pageNumber =? 1); reflexivity.
Qed.

(** X13: As long as every operation is started from the screen that shows the
    store as it is, the view is made of postings of [jobs], in the order
    of [jobs]: it never shows a posting that is not loaded. *)
Theorem view_is_picked_from_jobs :
  forall s, shown_run s -> picked_from (filteredJobs s) (jobs s).
Proof.
  induction 1 as [|s s' _ IH Hstep]; [constructor|].
  destruct Hstep.
  - now apply fetchJobs_keeps_view_picked.
  - unfold loadMoreJobs.
    destruct (loadingMore s || loading s)%bool; [exact IH|]. cbv zeta.
    rewrite (proj1 (searchJobs_touches_view_only _ _ _)).
    unfold searchJobs at 1. simpl.
    match goal with
    | |- context [fetchJobs ?p true ?r ?u ?st] =>
        destruct (fetchJobs_append_extends p r u st) as [new ->]
    end.
    simpl. apply picked_from_longer.
  - unfold searchJobs. destruct (String.eqb text ""); simpl.
    + apply picked_from_refl.
    + apply picked_from_filter.
  - exact IH.
  - exact IH.
Qed.

(** ** Time ago *)

Lemma whole_floor_div (sec len : Z) :
  0 < len ->
  Math_floor (num_div (Fin (inject_Z sec)) (Fin (inject_Z len)))
  = Fin (inject_Z (sec / len)).
Proof.
  intros Hlen. destruct len as [|len|len]; try lia.
  unfold num_div, Math_floor. simpl. now rewrite Z.mul_1_r.
Qed.

Lemma num_ge_whole (k m : Z) :
  num_ge (Fin (inject_Z k)) (Fin (inject_Z m)) = (m <=? k).
Proof. unfold num_ge, Qle_bool. simpl. now rewrite !Z.mul_1_r. Qed.

Lemma num_gt_whole (k m : Z) :
  num_gt (Fin (inject_Z k)) (Fin (inject_Z m)) = (m <? k).
Proof.
  unfold num_gt, num_lt, Qlt_bool, Qle_bool. simpl.
  rewrite !Z.mul_1_r. now rewrite Z.ltb_antisym.
Qed.

Lemma number_toString_whole (k : Z) :
  number_toString (Fin (inject_Z k)) = Z_toString k.
Proof. unfold number_toString. simpl. now rewrite Z.div_1_r. Qed.

Lemma getTimeAgo_loop_whole (sec : Z) (key : string) (len : Z)
      (rest : list (string * Z)) :
  0 < len ->
  getTimeAgo_loop (Fin (inject_Z sec)) ((key, len) :: rest)
  = if len <=? sec then ago (sec / len) key
    else getTimeAgo_loop (Fin (inject_Z sec)) rest.
Proof.
  intros Hlen. cbn [getTimeAgo_loop]. cbv zeta.
  rewrite (whole_floor_div sec len Hlen).
  change (Fin 1) with (Fin (inject_Z 1)).
  rewrite num_ge_whole, num_gt_whole, number_toString_whole.
  assert (H : (1 <=? sec / len) = (len <=? sec)).
  { destruct (Z.leb_spec len sec) as [H|H].
    - apply Z.leb_le. apply Z.div_le_lower_bound; lia.
    - apply Z.leb_gt. apply Z.div_lt_upper_bound; lia. }
  rewrite H. reflexivity.
Qed.

Lemma elapsed_whole (now p : Z) :
  Qfloor ((inject_Z now - inject_Z p * 1000) / 1000) = now / 1000 - p.
Proof.
  assert (H : ((inject_Z now - inject_Z p * 1000) / 1000
               == inject_Z (now - p * 1000) / inject_Z 1000)%Q)
    by (unfold Qeq; simpl; ring).
  rewrite (Qfloor_comp _ _ H). simpl. rewrite Z.mul_1_r.
  replace (now - p * 1000) with (now + (- p) * 1000) by ring.
  rewrite Z.div_add by lia. ring.
Qed.

Lemma getTimeAgo_whole (now p : Z) :
  getTimeAgo now (JNumber (Fin (inject_Z p)))
  = getTimeAgo_loop (Fin (inject_Z (now / 1000 - p))) intervals.
Proof.
  unfold getTimeAgo. cbv zeta.
  change (Math_floor (num_div (num_sub (Date_now now)
                                 (num_mul (Number (JNumber (Fin (inject_Z p))))
                                          (Fin 1000)))
                              (Fin 1000)))
    with (Fin (inject_Z (Qfloor ((inject_Z now - inject_Z p * 1000) / 1000)))).
  now rewrite elapsed_whole.
Qed.

(** X14: [getTimeAgo] counts in the largest unit that fits into the whole
    seconds [sec] gone by since [pubDate]: years from 31536000 s on, else
    months from 2592000 s, weeks from 604800 s, days from 86400 s, hours
    from 3600 s, minutes from 60 s; under a minute, and for a date still to
    come, it says "Just now".  The count is [sec] divided by the length of
    the unit, rounded down. *)
Theorem getTimeAgo_counts_in_largest_unit :
  forall (now p : Z),
    let sec := now / 1000 - p in
    let shown := getTimeAgo now (JNumber (Fin (inject_Z p))) in
    (sec < 60 -> shown = "Just now")
    /\ (60 <= sec < 3600 -> shown = ago (sec / 60) "minute")
    /\ (3600 <= sec < 86400 -> shown = ago (sec / 3600) "hour")
    /\ (86400 <= sec < 604800 -> shown = ago (sec / 86400) "day")
    /\ (604800 <= sec < 2592000 -> shown = ago (sec / 604800) "week")
    /\ (2592000 <= sec < 31536000 -> shown = ago (sec / 2592000) "month")
    /\ (31536000 <= sec -> shown = ago (sec / 31536000) "year").
Proof.
  intros now p sec shown. subst shown. rewrite getTimeAgo_whole.
  fold sec. unfold intervals.
  rewrite !getTimeAgo_loop_whole by lia. cbn [getTimeAgo_loop].
  repeat split; intros H;
    repeat match goal with
           | |- context [?a <=? sec] =>
               destruct (Z.leb_spec a sec); try lia
           end; reflexivity.
Qed.

(** X15: A posting built from a record without [pubDate] reads "Just now", at
    any time: the missing date is [NaN] and no comparison with [NaN]
    holds. *)
Theorem getTimeAgo_without_pubDate :
  forall (now : Z) (theId : string) (job : Raw.t),
    Raw.pubDate job = undefined ->
    getTimeAgo now (pubDate (jobWithId theId job)) = "Just now".
Proof.
  intros now theId job H. unfold jobWithId. simpl. rewrite H. reflexivity.
Qed.

(** ** Expired, days left, salary *)

Lemma expiry_times_1000 (e now : Z) :
  num_lt (num_mul (Fin (inject_Z e)) (Fin 1000)) (Date_now now)
  = (e * 1000 <? now).
Proof.
  unfold num_lt, num_mul, Date_now, Qlt_bool, Qle_bool. simpl.
  rewrite !Z.mul_1_r. now rewrite Z.ltb_antisym.
Qed.

Lemma truthy_whole (e : Z) :
  truthy (JNumber (Fin (inject_Z e))) = negb (e =? 0).
Proof.
  unfold truthy, truthy_number, Qeq_bool. simpl. now rewrite Z.mul_1_r.
Qed.

(** X16: The list screens mark a posting as expired, and disable its Apply
    button, exactly when its expiry is a number other than zero whose
    millisecond value lies before the clock; a posting built from a record
    without [expiryDate], or with [null] there, is never marked. *)
Theorem isExpired_exactly :
  (forall (now e : Z),
      truthy (isExpired now (JNumber (Fin (inject_Z e)))) = true
      <-> e <> 0 /\ e * 1000 < now)
  /\ (forall (now : Z) (theId : string) (job : Raw.t),
         Raw.expiryDate job = undefined \/ Raw.expiryDate job = null ->
         truthy (isExpired now (expiryDate (jobWithId theId job))) = false).
Proof.
  split.
  - intros now e. unfold isExpired, and_then.
    rewrite truthy_whole.
    change (Number (JNumber (Fin (inject_Z e)))) with (Fin (inject_Z e)).
    rewrite expiry_times_1000.
    destruct (Z.eqb_spec e 0) as [->|He]; simpl.
    + split; [discriminate | intros [H _]; now elim H].
    + rewrite Z.ltb_lt. tauto.
  - intros now theId job [H|H]; unfold jobWithId; simpl; rewrite H;
      reflexivity.
Qed.

(** X17: On the list screens a posting built from a record that lacks one of
    the two salaries, or has [null] there, reads "Salary not disclosed". *)
Theorem salary_not_disclosed_when_one_is_missing :
  forall (theId : string) (job : Raw.t),
    Raw.minSalary job = undefined \/ Raw.minSalary job = null
    \/ Raw.maxSalary job = undefined \/ Raw.maxSalary job = null ->
    salary_disclosed (jobWithId theId job) = false.
Proof.
  intros theId job H. unfold salary_disclosed, and_then, jobWithId.
  cbn [minSalary maxSalary nullish].
  destruct H as [H|[H|[H|H]]]; rewrite H; try reflexivity;
    destruct (truthy (JNumber (Number (Raw.minSalary job)))) eqn:E;
    try reflexivity; exact E.
Qed.

(** X18: On the application form, for a posting built from a record with
    neither salary, the salary block is not an element and not [false]: the
    guard hands on the number [NaN]; the same holds for the expiry line of
    a posting built without [expiryDate]. *)
Theorem form_guards_yield_NaN :
  forall (now_near now_days : Z) (theId : string) (job : Raw.t)
         (element : JsValue),
    (Raw.minSalary job = undefined -> Raw.maxSalary job = undefined ->
       salary_block (jobWithId theId job) element = JNumber NaN)
    /\ (Raw.expiryDate job = undefined ->
          expiry_line now_near now_days (jobWithId theId job) = JNumber NaN).
Proof.
  intros now_near now_days theId job element. split.
  - intros Hmin Hmax. unfold salary_block, or_value, and_then, jobWithId.
    simpl. rewrite Hmin, Hmax. reflexivity.
  - intros H. unfold expiry_line, and_then, jobWithId. simpl.
    rewrite H. reflexivity.
Qed.

Lemma days_left_whole (e now : Z) :
  Qfloor ((inject_Z e * 1000 - inject_Z now) / (1000 * 60 * 60 * 24))
  = (e * 1000 - now) / 86400000.
Proof.
  assert (H : ((inject_Z e * 1000 - inject_Z now) / (1000 * 60 * 60 * 24)
               == inject_Z (e * 1000 - now) / inject_Z 86400000)%Q)
    by (unfold Qeq; simpl; ring).
  rewrite (Qfloor_comp _ _ H). simpl. now rewrite Z.mul_1_r.
Qed.

Lemma daysUntilExpiry_whole (now e : Z) (job : Job) :
  expiryDate job = JNumber (Fin (inject_Z e)) -> e <> 0 ->
  daysUntilExpiry now job
  = if 0 <? (e * 1000 - now) / 86400000
    then JString (Z_toString ((e * 1000 - now) / 86400000) ++ " days left")
    else JString "Expired".
Proof.
  intros He Hnz. unfold daysUntilExpiry. rewrite He, truthy_whole.
  apply Z.eqb_neq in Hnz. rewrite Hnz. cbn [negb]. cbv zeta.
  change (Math_floor
            (num_div (num_sub (num_mul (Number (JNumber (Fin (inject_Z e))))
                                       (Fin 1000))
                              (Date_now now))
                     (Fin (1000 * 60 * 60 * 24))))
    with (Fin (inject_Z
                 (Qfloor ((inject_Z e * 1000 - inject_Z now)
                          / (1000 * 60 * 60 * 24))))).
  rewrite days_left_whole.
  change (Fin 0) with (Fin (inject_Z 0)).
  now rewrite num_gt_whole, number_toString_whole.
Qed.

(** X19: [daysUntilExpiry] gives "k days left" for an expiry [k] whole days
    ahead ([k] at least 1, "1 days left" included), and "Expired" for an
    expiry less than a day ahead, although such a posting is not expired
    for the list screens. *)
Theorem daysUntilExpiry_rounds_down :
  forall (now e k : Z) (job : Job),
    expiryDate job = JNumber (Fin (inject_Z e)) -> e <> 0 ->
    (1 <= k -> e * 1000 - now = k * 86400000 ->
       daysUntilExpiry now job = JString (Z_toString k ++ " days left"))
    /\ (now < e * 1000 < now + 86400000 ->
          daysUntilExpiry now job = JString "Expired"
          /\ truthy (isExpired now (expiryDate job)) = false).
Proof.
  intros now e k job He Hnz.
  rewrite (daysUntilExpiry_whole now e job He Hnz). split.
  - intros Hk Heq. rewrite Heq, Z.div_mul by lia.
    destruct (Z.ltb_spec 0 k); [reflexivity | lia].
  - intros H. rewrite Z.div_small by lia. split; [reflexivity|].
    rewrite He. unfold isExpired, and_then. rewrite truthy_whole.
    apply Z.eqb_neq in Hnz. rewrite Hnz. cbn [negb].
    change (Number (JNumber (Fin (inject_Z e)))) with (Fin (inject_Z e)).
    rewrite expiry_times_1000. simpl.
    destruct (Z.ltb_spec (e * 1000) now); [lia | reflexivity].
Qed.

Lemma isExpiryNear_whole (now e : Z) (job : Job) :
  expiryDate job = JNumber (Fin (inject_Z e)) -> e <> 0 ->
  truthy (isExpiryNear now job) = (e * 1000 - now <? 432000000).
Proof.
  intros He Hnz. unfold isExpiryNear, and_then. rewrite He, truthy_whole.
  apply Z.eqb_neq in Hnz. rewrite Hnz. cbn [negb].
  rewrite today_is_now_over_1000.
  change (Number (JNumber (Fin (inject_Z e)))) with (Fin (inject_Z e)).
  unfold num_sub, num_lt, truthy, Qlt_bool, Qle_bool. simpl.
  destruct (Z.leb_spec 432000000 ((e * 1000 + - (now * 1) * 1) * 1));
    destruct (Z.ltb_spec (e * 1000 - now) 432000000);
    simpl; try reflexivity; lia.
Qed.

(** X20: The expiry line of the application form, for an expiry other
    than zero in whole seconds.  [isExpiryNear] reads the clock first and
    [daysUntilExpiry] reads it again.  When the second reading finds at
    least [k] and less than [k + 1] days left, [k] at least 1, the line is
    "Expires soon! k days left" if the first reading found less than 5 days
    left and "Expires in k days left" if it found 5 days or more; when the
    second reading finds less than one day left, or the expiry passed, and
    the first found less than 5 days, the line is "Expires soon! Expired". *)
Theorem expiry_line_texts :
  forall (now_near now_days e k : Z) (job : Job),
    expiryDate job = JNumber (Fin (inject_Z e)) -> e <> 0 ->
    (1 <= k ->
     k * 86400000 <= e * 1000 - now_days < (k + 1) * 86400000 ->
       (e * 1000 - now_near < 432000000 ->
          expiry_line now_near now_days job
          = JString ("Expires soon! " ++ Z_toString k ++ " days left"))
       /\ (432000000 <= e * 1000 - now_near ->
             expiry_line now_near now_days job
             = JString ("Expires in " ++ Z_toString k ++ " days left")))
    /\ (e * 1000 - now_days < 86400000 ->
        e * 1000 - now_near < 432000000 ->
          expiry_line now_near now_days job = JString "Expires soon! Expired").
Proof.
  intros now_near now_days e k job He Hnz.
  assert (Hline : expiry_line now_near now_days job
                  = JString (if e * 1000 - now_near <? 432000000
                             then "Expires soon! "
                                  ++ template (daysUntilExpiry now_days job)
                             else "Expires in "
                                  ++ template (daysUntilExpiry now_days job))).
  { unfold expiry_line, and_then.
    rewrite (isExpiryNear_whole now_near e job He Hnz).
    rewrite He, truthy_whole. apply Z.eqb_neq in Hnz. now rewrite Hnz. }
  rewrite Hline, (daysUntilExpiry_whole now_days e job He Hnz).
  split.
  - intros Hk Hrange.
    assert (Hdays : (e * 1000 - now_days) / 86400000 = k).
    { symmetry. apply Z.div_unique with (r := e * 1000 - now_days - k * 86400000);
        lia. }
    rewrite Hdays. destruct (Z.ltb_spec 0 k); [|lia].
    split; intros Hnear.
    + destruct (Z.ltb_spec (e * 1000 - now_near) 432000000);
        [reflexivity | lia].
    + destruct (Z.ltb_spec (e * 1000 - now_near) 432000000);
        [lia | reflexivity].
  - intros Hdays Hnear.
    destruct (Z.ltb_spec (e * 1000 - now_near) 432000000); [|lia].
    assert ((e * 1000 - now_days) / 86400000 < 1)
      by (apply Z.div_lt_upper_bound; lia).
    destruct (Z.ltb_spec 0 ((e * 1000 - now_days) / 86400000));
      [lia | reflexivity].
Qed.


(** ** The application form *)

Lemma blank_cons (c : ascii) (s : string) :
  blank (String c s) <-> is_whitespace c = true /\ blank s.
Proof.
  clear toLowerCase toLowerCase_empty StringToNumber.
  unfold blank. simpl. split.
  - intros H. split; [apply H; now left | intros d Hd; apply H; now right].
  - intros [Hc Hs] d [<-|Hd]; auto.
Qed.

Lemma blank_empty : blank "".
Proof.
  clear toLowerCase toLowerCase_empty StringToNumber. intros c []. Qed.

Lemma trimStart_empty (s : string) : trimStart s = "" <-> blank s.
Proof.
  clear toLowerCase toLowerCase_empty StringToNumber.
  induction s as [|c s IH]; simpl.
  - split; [intros _; apply blank_empty | reflexivity].
  - rewrite blank_cons. destruct (is_whitespace c).
    + rewrite IH. tauto.
    + split; [discriminate | intros [H _]; discriminate].
Qed.

Lemma trimEnd_empty (s : string) : trimEnd s = "" <-> blank s.
Proof.
  clear toLowerCase toLowerCase_empty StringToNumber.
  induction s as [|c s IH]; simpl.
  - split; [intros _; apply blank_empty | reflexivity].
  - rewrite blank_cons. destruct (trimEnd s) as [|d rest].
    + destruct (is_whitespace c).
      * split; [intros _; split; [reflexivity | now apply IH] | reflexivity].
      * split; [discriminate | intros [H _]; discriminate].
    + split; [discriminate|]. intros [_ H]. apply IH in H. discriminate.
Qed.

Lemma trimStart_blank (s : string) : blank (trimStart s) <-> blank s.
Proof.
  clear toLowerCase toLowerCase_empty StringToNumber.
  induction s as [|c s IH]; simpl; [tauto|].
  destruct (is_whitespace c) eqn:E.
  - rewrite IH, blank_cons. tauto.
  - tauto.
Qed.

Lemma trim_empty (s : string) : String.eqb (trim s) "" = true <-> blank s.
Proof.
  clear toLowerCase toLowerCase_empty StringToNumber.
  rewrite String.eqb_eq. unfold trim.
  now rewrite trimEnd_empty, trimStart_blank.
Qed.

Lemma trim_not_empty (s : string) : String.eqb (trim s) "" = false <-> ~ blank s.
Proof.
  clear toLowerCase toLowerCase_empty StringToNumber.
  rewrite <- trim_empty. destruct (String.eqb (trim s) ""); split;
    congruence.
Qed.

(** X21: The form passes exactly when the name, the contact number and the
    reason each hold a character that is not white space and the e-mail
    holds an "@"; nothing else about the e-mail is looked at. *)
Theorem isValidForm_accepts_exactly :
  forall form : Form,
    fst (isValidForm form) = true
    <-> ~ blank (name form)
        /\ occurs_in "@" (email form)
        /\ ~ blank (contact form)
        /\ ~ blank (reason form).
Proof.
  clear toLowerCase toLowerCase_empty StringToNumber.
  intros form. unfold isValidForm.
  rewrite <- !trim_not_empty, <- includes_occurs.
  destruct (String.eqb (trim (name form)) "");
    destruct (includes (email form) "@");
    destruct (String.eqb (trim (contact form)) "");
    destruct (String.eqb (trim (reason form)) "");
    simpl; intuition congruence.
Qed.

(** X22: A form that does not pass raises one alert, for the first input at
    fault in the order name, e-mail, contact number, reason; a form that
    passes raises none. *)
Theorem isValidForm_alerts_first_fault :
  forall form : Form,
    (blank (name form) ->
       isValidForm form = (false, Some "Name is required."))
    /\ (~ blank (name form) -> ~ occurs_in "@" (email form) ->
          isValidForm form = (false, Some "Enter a valid email address."))
    /\ (~ blank (name form) -> occurs_in "@" (email form) ->
        blank (contact form) ->
          isValidForm form = (false, Some "Contact number is required."))
    /\ (~ blank (name form) -> occurs_in "@" (email form) ->
        ~ blank (contact form) -> blank (reason form) ->
          isValidForm form
          = (false, Some "Please provide a reason for hiring."))
    /\ (fst (isValidForm form) = true -> snd (isValidForm form) = None).
Proof.
  clear toLowerCase toLowerCase_empty StringToNumber.
  intros form. unfold isValidForm.
  rewrite <- !trim_not_empty, <- !trim_empty, <- includes_occurs.
  destruct (String.eqb (trim (name form)) "");
    destruct (includes (email form) "@");
    destruct (String.eqb (trim (contact form)) "");
    destruct (String.eqb (trim (reason form)) "");
    simpl; repeat split; intros; try reflexivity; congruence.
Qed.




End Store.

(** ** The theorems at sample inputs *)

(** A term that straddles two fields: "rA" lies across the end of the title
    "Engineer" and the start of the company name "Acme".  All the texts are
    ASCII, on which [toLowerCase] is the fold of the letters [A]..[Z]. *)
Lemma searchJobs_is_not_a_match_on_the_concatenation :
  filteredJobs (searchJobs toLowerCase_ascii page1_loaded "rA" page1_loaded) = []
  /\ filter (spec_concat_includes toLowerCase_ascii "rA") (jobs page1_loaded) = [job_a]
  /\ filteredJobs (searchJobs toLowerCase_ascii page1_loaded "rA" page1_loaded)
     <> filter (spec_concat_includes toLowerCase_ascii "rA") (jobs page1_loaded).
Proof.
  split; [reflexivity|]. split; [reflexivity|].
  vm_compute. discriminate.
Qed.

Lemma searchJobs_keeps_postings_with_a_matching_field_witness :
  toLowerCase_ascii "" = ""
  /\ filteredJobs (searchJobs toLowerCase_ascii page1_loaded "ACME" page1_loaded)
     = filter (some_field_includes toLowerCase_ascii (toLowerCase_ascii "ACME"))
              (jobs page1_loaded)
  /\ In job_a (filteredJobs
                 (searchJobs toLowerCase_ascii page1_loaded "ACME" page1_loaded)).
Proof.
  split; [reflexivity|]. split.
  - exact (proj1 (searchJobs_keeps_postings_with_a_matching_field
                    toLowerCase_ascii eq_refl page1_loaded "ACME")).
  - apply (proj1 (proj2 (proj2 (searchJobs_keeps_postings_with_a_matching_field
                                  toLowerCase_ascii eq_refl page1_loaded "ACME")))
             job_a).
    split; [now left|].
    exists "Acme". split; [simpl; tauto|]. exists "", "". reflexivity.
Defined.

Lemma fetchJobs_failure_keeps_state_and_flags_clear_witness :
  fetch_fails (JobsArray [Some Raw.empty; None]) = true
  /\ jobs (fetchJobs StringToNumber_digits 2 true
             (JobsArray [Some Raw.empty; None]) sample_uuid page1_loaded)
     = jobs page1_loaded
  /\ filteredJobs (fetchJobs StringToNumber_digits 2 true
                     (JobsArray [Some Raw.empty; None]) sample_uuid page1_loaded)
     = filteredJobs page1_loaded
  /\ savedJobs (fetchJobs StringToNumber_digits 2 true
                  (JobsArray [Some Raw.empty; None]) sample_uuid page1_loaded)
     = savedJobs page1_loaded
  /\ page (fetchJobs StringToNumber_digits 2 true
             (JobsArray [Some Raw.empty; None]) sample_uuid page1_loaded)
     = page page1_loaded.
Proof.
  split; [reflexivity|].
  apply (proj2 (proj2 (fetchJobs_failure_keeps_state_and_flags_clear
                         StringToNumber_digits 2 true
                         (JobsArray [Some Raw.empty; None])
                         sample_uuid page1_loaded))).
  reflexivity.
Defined.

Lemma savedJobs_ids_distinct_witness :
  reachable toLowerCase_ascii StringToNumber_digits (addJob job_a initial)
  /\ NoDup (ids (savedJobs (addJob job_a initial)))
  /\ NoDup (ids (savedJobs (removeJob "id-a" (addJob job_a initial)))).
Proof.
  assert (Hr : reachable toLowerCase_ascii StringToNumber_digits (addJob job_a initial)).
  { apply reachable_step with (s := initial).
    - apply reachable_initial.
    - apply step_addJob. }
  pose proof (savedJobs_ids_distinct toLowerCase_ascii StringToNumber_digits) as [Hinv [Hstep _]].
  split; [exact Hr|]. split.
  - exact (Hinv _ Hr).
  - apply (Hstep (addJob job_a initial)).
    + exact (Hinv _ Hr).
    + apply step_removeJob.
Defined.

Lemma expiring_soon_at_two_days_not_at_ten_witness :
  0 <= 1700000000000
  /\ expiring_soon StringToNumber_digits 1700000000000
       (with_expiry 1700172800 job_a) = true
  /\ expiring_soon StringToNumber_digits 1700000000000
       (with_expiry 1700864000 job_a) = false.
Proof.
  assert (Hnow : 0 <= 1700000000000) by lia.
  split; [exact Hnow|]. split.
  - apply (proj1 (expiring_soon_at_two_days_not_at_ten StringToNumber_digits
                    1700000000000 (with_expiry 1700172800 job_a) 1700172800
                    Hnow eq_refl)).
    vm_compute. reflexivity.
  - apply (proj2 (expiring_soon_at_two_days_not_at_ten StringToNumber_digits
                    1700000000000 (with_expiry 1700864000 job_a) 1700864000
                    Hnow eq_refl)).
    vm_compute. reflexivity.
Defined.

Lemma searchJobs_longer_text_narrows_witness :
  occurs_in (toLowerCase_ascii "eng") (toLowerCase_ascii "ENGINE")
  /\ picked_from (filteredJobs (searchJobs toLowerCase_ascii page1_loaded "ENGINE" page1_loaded))
                 (filteredJobs (searchJobs toLowerCase_ascii page1_loaded "eng" page1_loaded)).
Proof.
  assert (H : occurs_in (toLowerCase_ascii "eng") (toLowerCase_ascii "ENGINE"))
    by (exists "", "ine"; reflexivity).
  split; [exact H|].
  exact (searchJobs_longer_text_narrows toLowerCase_ascii eq_refl page1_loaded "eng" "ENGINE" H).
Defined.

Lemma searchJobs_ignores_case_of_text_witness :
  toLowerCase_ascii "ACME" = toLowerCase_ascii "acme"
  /\ searchJobs toLowerCase_ascii page1_loaded "ACME" page1_loaded
     = searchJobs toLowerCase_ascii page1_loaded "acme" page1_loaded.
Proof.
  split; [reflexivity|].
  exact (searchJobs_ignores_case_of_text toLowerCase_ascii eq_refl
           page1_loaded "ACME" "acme" eq_refl).
Defined.

Lemma removeJob_removes_only_that_id_witness :
  ~ In "id-z" (ids (savedJobs (addJob job_a page1_loaded)))
  /\ removeJob "id-z" (addJob job_a page1_loaded) = addJob job_a page1_loaded
  /\ (id job_a <> "id-z"
      /\ In job_a (savedJobs (removeJob "id-z" (addJob job_a page1_loaded)))).
Proof.
  assert (H : ~ In "id-z" (ids (savedJobs (addJob job_a page1_loaded))))
    by (simpl; intros [H|[]]; discriminate H).
  assert (Hneq : id job_a <> "id-z") by discriminate.
  split; [exact H|]. split.
  - exact (proj1 (removeJob_removes_only_that_id "id-z"
                    (addJob job_a page1_loaded)) H).
  - split; [exact Hneq|].
    apply (proj2 (proj2 (proj2 (removeJob_removes_only_that_id "id-z"
                                  (addJob job_a page1_loaded))))
             job_a Hneq).
    simpl. now left.
Defined.

Lemma removeJob_undoes_addJob_witness :
  ~ In (id job_a) (ids (savedJobs page1_loaded))
  /\ removeJob (id job_a) (addJob job_a page1_loaded) = page1_loaded.
Proof.
  assert (H : ~ In (id job_a) (ids (savedJobs page1_loaded)))
    by (simpl; tauto).
  split; [exact H | exact (removeJob_undoes_addJob job_a page1_loaded H)].
Defined.

Lemma save_button_follows_saved_jobs_witness :
  isSaved (with_expiry 0 job_a) (addJob job_a page1_loaded) = Some job_a
  /\ addJob (with_expiry 0 job_a) (addJob job_a page1_loaded)
     = addJob job_a page1_loaded
  /\ isSaved (with_expiry 0 job_a)
       (addJob (with_expiry 0 job_a) (addJob job_a page1_loaded))
     = Some job_a.
Proof.
  split; [reflexivity|].
  exact (proj2 (proj2 (save_button_follows_saved_jobs
                         (with_expiry 0 job_a) (addJob job_a page1_loaded)))
           job_a eq_refl).
Defined.

Lemma fetchJobs_success_witness :
  fetch_fails one_bare_record = false
  /\ exists new,
       jobsWithIds StringToNumber_digits sample_uuid 0 [Some Raw.empty]
       = Some new
       /\ List.length new = 1%nat
       /\ jobs (fetchJobs StringToNumber_digits 2 true one_bare_record
                  sample_uuid page1_loaded)
          = ([job_a] ++ new)%list
       /\ filteredJobs (fetchJobs StringToNumber_digits 2 true one_bare_record
                          sample_uuid page1_loaded)
          = ([job_a] ++ new)%list
       /\ loading (fetchJobs StringToNumber_digits 2 true one_bare_record
                     sample_uuid page1_loaded) = false
       /\ loadingMore (fetchJobs StringToNumber_digits 2 true one_bare_record
                         sample_uuid page1_loaded) = false.
Proof.
  split; [reflexivity|].
  exact (fetchJobs_success StringToNumber_digits 2 true [Some Raw.empty]
           sample_uuid page1_loaded eq_refl).
Defined.

Lemma fetched_ids_are_the_uuids_witness :
  jobsWithIds StringToNumber_digits sample_uuid 0
    [Some Raw.empty; Some Raw.empty]
  = Some [jobWithId StringToNumber_digits "id-b" Raw.empty;
          jobWithId StringToNumber_digits "id-c" Raw.empty]
  /\ (forall i k, (i < 2)%nat -> (k < 2)%nat ->
                  sample_uuid i = sample_uuid k -> i = k)
  /\ NoDup (ids [jobWithId StringToNumber_digits "id-b" Raw.empty;
                 jobWithId StringToNumber_digits "id-c" Raw.empty]).
Proof.
  assert (Hinj : forall i k, (i < 2)%nat -> (k < 2)%nat ->
                             sample_uuid i = sample_uuid k -> i = k).
  { intros [|[|i]] [|[|k]] Hi Hk H; try reflexivity; try discriminate H; lia. }
  split; [reflexivity|]. split; [exact Hinj|].
  exact (proj2 (fetched_ids_are_the_uuids StringToNumber_digits
                  [Some Raw.empty; Some Raw.empty] sample_uuid _ eq_refl)
           Hinj).
Defined.

Lemma fetched_postings_have_their_texts_witness :
  reachable toLowerCase_ascii StringToNumber_digits
    (fetchJobs StringToNumber_digits 1 false one_bare_record sample_uuid initial)
  /\ Forall fields_filled
       (jobs (fetchJobs StringToNumber_digits 1 false one_bare_record
                sample_uuid initial)).
Proof.
  assert (Hr : reachable toLowerCase_ascii StringToNumber_digits
                 (fetchJobs StringToNumber_digits 1 false one_bare_record
                    sample_uuid initial)).
  { apply reachable_step with (s := initial);
      [apply reachable_initial | apply step_fetchJobs]. }
  split; [exact Hr|].
  exact (proj2 (fetched_postings_have_their_texts toLowerCase_ascii
                  StringToNumber_digits) _ Hr).
Defined.

Lemma loadMoreJobs_busy_render_is_noop_witness :
  (loading busy_loading_more || loadingMore busy_loading_more)%bool = true
  /\ loadMoreJobs toLowerCase_ascii StringToNumber_digits busy_loading_more None one_bare_record
       sample_uuid busy_loading_more
     = busy_loading_more.
Proof.
  split; [reflexivity|].
  exact (loadMoreJobs_busy_render_is_noop toLowerCase_ascii StringToNumber_digits
           busy_loading_more None one_bare_record sample_uuid
           busy_loading_more eq_refl).
Defined.

Lemma loadMoreJobs_failed_fetch_still_advances_witness :
  fetch_fails Rejected = true
  /\ page (loadMoreJobs toLowerCase_ascii StringToNumber_digits page1_loaded None Rejected
             sample_uuid page1_loaded) = page page1_loaded + 1.
Proof.
  split; [reflexivity|].
  exact (proj1 (loadMoreJobs_failed_fetch_still_advances toLowerCase_ascii
                  StringToNumber_digits
                  Rejected sample_uuid page1_loaded eq_refl eq_refl eq_refl)).
Defined.

Lemma loadMoreJobs_discards_search_witness :
  filteredJobs (searchJobs toLowerCase_ascii page1_loaded "zzz" page1_loaded) = []
  /\ filteredJobs
       (loadMoreJobs toLowerCase_ascii StringToNumber_digits
          (searchJobs toLowerCase_ascii page1_loaded "zzz" page1_loaded) None one_bare_record
          sample_uuid (searchJobs toLowerCase_ascii page1_loaded "zzz" page1_loaded))
     = [job_a].
Proof.
  split; [reflexivity|].
  exact (loadMoreJobs_discards_search toLowerCase_ascii StringToNumber_digits "zzz"
           one_bare_record sample_uuid page1_loaded eq_refl eq_refl).
Defined.

Lemma view_is_picked_from_jobs_witness :
  shown_run toLowerCase_ascii StringToNumber_digits
    (searchJobs toLowerCase_ascii
       (fetchJobs StringToNumber_digits 1 false one_bare_record sample_uuid
          initial)
       "zzz"
       (fetchJobs StringToNumber_digits 1 false one_bare_record sample_uuid
          initial))
  /\ picked_from [] [jobWithId StringToNumber_digits "id-b" Raw.empty].
Proof.
  assert (Hr : shown_run toLowerCase_ascii StringToNumber_digits
                 (searchJobs toLowerCase_ascii
                    (fetchJobs StringToNumber_digits 1 false one_bare_record
                       sample_uuid initial)
                    "zzz"
                    (fetchJobs StringToNumber_digits 1 false one_bare_record
                       sample_uuid initial))).
  { eapply shown_step; [|apply shown_searchJobs].
    eapply shown_step; [apply shown_initial | apply shown_fetchJobs]. }
  split; [exact Hr|].
  exact (view_is_picked_from_jobs toLowerCase_ascii StringToNumber_digits _ Hr).
Defined.

Lemma getTimeAgo_counts_in_largest_unit_witness :
  3600 <= 1700000000000 / 1000 - 1699992800 < 86400
  /\ getTimeAgo StringToNumber_digits 1700000000000
       (JNumber (Fin (inject_Z 1699992800)))
     = "2 hours ago".
Proof.
  assert (H : 3600 <= 1700000000000 / 1000 - 1699992800 < 86400)
    by (vm_compute; split; [discriminate | reflexivity]).
  split; [exact H|].
  exact (proj1 (proj2 (proj2 (getTimeAgo_counts_in_largest_unit
                                StringToNumber_digits
                                1700000000000 1699992800))) H).
Defined.

Lemma getTimeAgo_without_pubDate_witness :
  Raw.pubDate Raw.empty = undefined
  /\ getTimeAgo StringToNumber_digits 1700000000000
       (pubDate (jobWithId StringToNumber_digits "id-b" Raw.empty))
     = "Just now".
Proof.
  split; [reflexivity|].
  exact (getTimeAgo_without_pubDate StringToNumber_digits 1700000000000
           "id-b" Raw.empty eq_refl).
Defined.

Lemma isExpired_exactly_witness :
  (1600000000 <> 0 /\ 1600000000 * 1000 < 1700000000000)
  /\ truthy (isExpired StringToNumber_digits 1700000000000
               (JNumber (Fin (inject_Z 1600000000)))) = true
  /\ truthy (isExpired StringToNumber_digits 1700000000000
               (expiryDate (jobWithId StringToNumber_digits "id-b" Raw.empty)))
     = false.
Proof.
  assert (H : 1600000000 <> 0 /\ 1600000000 * 1000 < 1700000000000)
    by (split; [discriminate | reflexivity]).
  split; [exact H|]. split.
  - exact (proj2 (proj1 (isExpired_exactly StringToNumber_digits)
                    1700000000000 1600000000) H).
  - exact (proj2 (isExpired_exactly StringToNumber_digits)
             1700000000000 "id-b" Raw.empty (or_introl eq_refl)).
Defined.

Lemma salary_not_disclosed_when_one_is_missing_witness :
  Raw.minSalary Raw.empty = undefined
  /\ salary_disclosed (jobWithId StringToNumber_digits "id-b" Raw.empty) = false.
Proof.
  split; [reflexivity|].
  exact (salary_not_disclosed_when_one_is_missing StringToNumber_digits
           "id-b" Raw.empty (or_introl eq_refl)).
Defined.

Lemma form_guards_yield_NaN_witness :
  salary_block (jobWithId StringToNumber_digits "id-b" Raw.empty)
    (JObject "element")
  = JNumber NaN
  /\ expiry_line StringToNumber_digits 1700000000000 1700000000001
       (jobWithId StringToNumber_digits "id-b" Raw.empty)
     = JNumber NaN.
Proof.
  split.
  - exact (proj1 (form_guards_yield_NaN StringToNumber_digits 1700000000000
                    1700000000001
                    "id-b" Raw.empty (JObject "element")) eq_refl eq_refl).
  - exact (proj2 (form_guards_yield_NaN StringToNumber_digits 1700000000000
                    1700000000001
                    "id-b" Raw.empty (JObject "element")) eq_refl).
Defined.

Lemma daysUntilExpiry_rounds_down_witness :
  (1700172800 <> 0
   /\ 1700172800 * 1000 - 1700000000000 = 2 * 86400000
   /\ 1700000000000 < 1700000060 * 1000 < 1700000000000 + 86400000)
  /\ daysUntilExpiry StringToNumber_digits 1700000000000
       (with_expiry (inject_Z 1700172800) job_a)
     = JString "2 days left"
  /\ daysUntilExpiry StringToNumber_digits 1700000000000
       (with_expiry (inject_Z 1700000060) job_a)
     = JString "Expired".
Proof.
  assert (H1 : 1700172800 <> 0) by discriminate.
  assert (H2 : 1700172800 * 1000 - 1700000000000 = 2 * 86400000)
    by reflexivity.
  assert (H3 : 1700000000000 < 1700000060 * 1000 < 1700000000000 + 86400000)
    by (split; reflexivity).
  assert (H4 : 1700000060 <> 0) by discriminate.
  split; [exact (conj H1 (conj H2 H3))|]. split.
  - apply (proj1 (daysUntilExpiry_rounds_down StringToNumber_digits
                    1700000000000 1700172800 2
                    (with_expiry (inject_Z 1700172800) job_a) eq_refl H1));
      [lia | exact H2].
  - exact (proj1 (proj2 (daysUntilExpiry_rounds_down StringToNumber_digits
                           1700000000000 1700000060 0
                           (with_expiry (inject_Z 1700000060) job_a)
                           eq_refl H4) H3)).
Defined.

Lemma expiry_line_texts_witness :
  expiry_line StringToNumber_digits 1700000000000 1700000000001
    (with_expiry (inject_Z 1700172800) job_a)
  = JString "Expires soon! 1 days left"
  /\ expiry_line StringToNumber_digits 1700000000000 1700000000001
       (with_expiry (inject_Z 1700864000) job_a)
     = JString "Expires in 9 days left"
  /\ expiry_line StringToNumber_digits 1700000000000 1700000000001
       (with_expiry (inject_Z 1600000000) job_a)
     = JString "Expires soon! Expired".
Proof.
  assert (H1 : 1700172800 <> 0) by discriminate.
  assert (H2 : 1700864000 <> 0) by discriminate.
  assert (H3 : 1600000000 <> 0) by discriminate.
  split; [|split].
  - apply (proj1 (proj1 (expiry_line_texts StringToNumber_digits
                           1700000000000 1700000000001 1700172800 1
                           (with_expiry (inject_Z 1700172800) job_a)
                           eq_refl H1)
                    ltac:(lia) ltac:(lia))).
    lia.
  - apply (proj2 (proj1 (expiry_line_texts StringToNumber_digits
                           1700000000000 1700000000001 1700864000 9
                           (with_expiry (inject_Z 1700864000) job_a)
                           eq_refl H2)
                    ltac:(lia) ltac:(lia))).
    lia.
  - apply (proj2 (expiry_line_texts StringToNumber_digits
                    1700000000000 1700000000001 1600000000 0
                    (with_expiry (inject_Z 1600000000) job_a) eq_refl H3));
      lia.
Defined.

Lemma isValidForm_alerts_first_fault_witness :
  (blank is_whitespace_latin1 (String (ascii_of_nat 160) " ")
   /\ isValidForm is_whitespace_latin1
        (mkForm (String (ascii_of_nat 160) " ") "ab" "123" "why")
      = (false, Some "Name is required."))
  /\ (~ blank is_whitespace_latin1 "Ann" /\ ~ occurs_in "@" "ab"
      /\ isValidForm is_whitespace_latin1 (mkForm "Ann" "ab" "123" "why")
         = (false, Some "Enter a valid email address.")).
Proof.
  assert (Hb : blank is_whitespace_latin1 (String (ascii_of_nat 160) " ")).
  { intros c [<-|[<-|[]]]; reflexivity. }
  assert (Hn : ~ blank is_whitespace_latin1 "Ann").
  { intros H. specialize (H "A"%char (or_introl eq_refl)). discriminate H. }
  assert (He : ~ occurs_in "@" "ab").
  { intros H. apply includes_occurs in H. discriminate H. }
  split.
  - split; [exact Hb|].
    exact (proj1 (isValidForm_alerts_first_fault is_whitespace_latin1
                    (mkForm (String (ascii_of_nat 160) " ") "ab" "123" "why"))
             Hb).
  - split; [exact Hn|]. split; [exact He|].
    exact (proj1 (proj2 (isValidForm_alerts_first_fault is_whitespace_latin1
                           (mkForm "Ann" "ab" "123" "why"))) Hn He).
Defined.
